(** * kge-server: suggestion index and similarity/distance endpoints

    A shallow embedding of
      - rest-service/data_access/entity_dao.py   (class EntityDAO)
      - rest-service/endpoints/dataset_prediction.py
          (classes PredictSimilarEntitiesResource and DistanceTriples)
    together with the properties checked against them. *)

From Stdlib Require Import ZArith QArith Ascii String DecimalString.
From stdpp Require Import gmap strings list.

Set Warnings "-register-all".
Local Open Scope Z_scope.
Local Open Scope string_scope.
Local Open Scope list_scope.

(** ** Python values and the operations the handlers apply to them *)

(** What [json.loads] builds: None, bool, int, float, str, list, dict.
    Floats are only carried around by this program, never computed with;
    they are represented by rationals.  A dict is kept as its item list in
    insertion order; a dict built by [json.loads] has distinct keys. *)
Inductive json : Type :=
| JNull
| JBool (b : bool)
| JInt (z : Z)
| JFloat (q : Q)
| JStr (s : string)
| JList (l : list json)
| JDict (d : list (string * json)).

(** The key carried by a [KeyError]: the subscript that was not found. *)
Inductive pykey : Type :=
| KStr (s : string)
| KInt (z : Z).

(** A message assembled with [str.format]: the literal pieces of the template
    and, at each [{}], the value that is rendered there. *)
Inductive frag : Type :=
| Lit (s : string)
| Arg (v : json).

Definition message : Type := list frag.

(** Exceptions that can travel through the modelled code.  The last five are
    falcon's HTTP errors; [NotFoundError] and [RequestError] are those of the
    Elasticsearch client. *)
Inductive exn : Type :=
| KeyError (k : pykey)
| IndexError
| TypeError
| ValueError
| AttributeError
| JSONDecodeError
| NotFoundError
| RequestError
| HTTPBadRequest (title : string) (description : message)
| HTTPMissingParam (param_name : string)
| HTTPInvalidParam (msg : string) (param_name : string)
| HTTPNotFound (description : message)
| HTTPConflict (title : string) (description : message).

(** HTTP status falcon answers with for each of its errors
    (HTTPMissingParam and HTTPInvalidParam derive from HTTPBadRequest);
    any other exception is not an HTTP error. *)
Definition http_status_of (e : exn) : option Z :=
  match e with
  | HTTPBadRequest _ _ | HTTPMissingParam _ | HTTPInvalidParam _ _ => Some 400
  | HTTPNotFound _ => Some 404
  | HTTPConflict _ _ => Some 409
  | _ => None
  end.

(** A computation that threads a state [S] and may raise. *)
Definition result (A : Type) : Type := (exn + A)%type.
Definition M (S A : Type) : Type := S -> result A * S.

Definition ret {S A} (a : A) : M S A := fun st => (inr a, st).
Definition raise {S A} (e : exn) : M S A := fun st => (inl e, st).
Definition bind {S A B} (m : M S A) (f : A -> M S B) : M S B :=
  fun st => match m st with
            | (inl e, st') => (inl e, st')
            | (inr a, st') => f a st'
            end.
(** [try: m except: h]: [h e = None] when no clause matches [e]. *)
Definition try_except {S A} (m : M S A) (h : exn -> option (M S A)) : M S A :=
  fun st => match m st with
            | (inl e, st') => match h e with
                              | Some k => k st'
                              | None => (inl e, st')
                              end
            | r => r
            end.

Notation "'do' x <- m ; k" := (bind m (fun x => k))
  (at level 10, x name, m at level 99, k at level 200).
Notation "'do' ' p <- m ; k" := (bind m (fun x => match x with p => k end))
  (at level 10, p pattern, m at level 99, k at level 200).
Notation "'exec' m ; k" := (bind m (fun _ => k))
  (at level 10, m at level 99, k at level 200).

(** Pure Python operations raise but touch no state. *)
Definition pure (A : Type) : Type := M unit A.
Definition run {A} (m : pure A) : result A := fst (m tt).
Definition lift {S A} (m : pure A) : M S A := fun st => (run m, st).

(** [str(i)] for an int. *)
Definition str_int (z : Z) : string := NilZero.string_of_int (Z.to_int z).

(** [repr(s)] for a str without quotes, backslashes or control characters,
    which is what every str subscript of this program is. *)
Definition repr_str (s : string) : string := String "'"%char (String.append s "'").

(** [str(err)] for a [KeyError]: the repr of the missing key. *)
Definition str_KeyError (k : pykey) : string :=
  match k with
  | KStr s => repr_str s
  | KInt z => str_int z
  end.

Fixpoint dict_get (d : list (string * json)) (k : string) : option json :=
  match d with
  | [] => None
  | (k', v) :: d' => if String.eqb k k' then Some v else dict_get d' k
  end.

(** [v[k]] with a str subscript. *)
Definition getitem_str (v : json) (k : string) : pure json :=
  match v with
  | JDict d => match dict_get d k with
               | Some x => ret x
               | None => raise (KeyError (KStr k))
               end
  | _ => raise TypeError
  end.

Fixpoint string_nth (s : string) (i : nat) : option ascii :=
  match s, i with
  | EmptyString, _ => None
  | String c _, O => Some c
  | String _ s', Datatypes.S i' => string_nth s' i'
  end.

(** [v[i]] with a non-negative int subscript.  The keys of a JSON dict are
    all str, so an int subscript is never found in one. *)
Definition getitem_int (v : json) (i : nat) : pure json :=
  match v with
  | JList l => match nth_error l i with
               | Some x => ret x
               | None => raise IndexError
               end
  | JStr s => match string_nth s i with
              | Some c => ret (JStr (String c EmptyString))
              | None => raise IndexError
              end
  | JDict _ => raise (KeyError (KInt (Z.of_nat i)))
  | _ => raise TypeError
  end.

Fixpoint is_substring (s t : string) : bool :=
  if String.prefix s t then true
  else match t with
       | EmptyString => false
       | String _ t' => is_substring s t'
       end.

Definition is_str (s : string) (v : json) : bool :=
  match v with
  | JStr s' => String.eqb s s'
  | _ => false
  end.

(** [s in v] for a str [s]. *)
Definition contains_str (s : string) (v : json) : pure bool :=
  match v with
  | JDict d => ret (match dict_get d s with Some _ => true | None => false end)
  | JList l => ret (existsb (is_str s) l)
  | JStr t => ret (is_substring s t)
  | _ => raise TypeError
  end.

(** [z == v] for an int [z]: ints, floats and bools compare by value. *)
Definition eq_int (z : Z) (v : json) : bool :=
  match v with
  | JInt z' => Z.eqb z z'
  | JFloat q => Qeq_bool (inject_Z z) q
  | JBool b => Z.eqb z (if b then 1 else 0)
  | _ => false
  end.

(** [z in v] for an int [z]. *)
Definition contains_int (z : Z) (v : json) : pure bool :=
  match v with
  | JList l => ret (existsb (eq_int z) l)
  | JDict _ => ret false
  | _ => raise TypeError
  end.

(** [isinstance(v, list)]. *)
Definition isinstance_list (v : json) : bool :=
  match v with
  | JList _ => true
  | _ => false
  end.

(** [len(v)]. *)
Definition len (v : json) : pure Z :=
  match v with
  | JList l => ret (Z.of_nat (length l))
  | JDict d => ret (Z.of_nat (length d))
  | JStr s => ret (Z.of_nat (String.length s))
  | _ => raise TypeError
  end.

Fixpoint chars (s : string) : list json :=
  match s with
  | EmptyString => []
  | String c s' => JStr (String c EmptyString) :: chars s'
  end.

(** The items a [for] loop over [v] visits. *)
Definition iter (v : json) : pure (list json) :=
  match v with
  | JList l => ret l
  | JDict d => ret (map (fun kv => JStr (fst kv)) d)
  | JStr s => ret (chars s)
  | _ => raise TypeError
  end.

Definition lower_ascii (c : ascii) : ascii :=
  let n := nat_of_ascii c in
  if (65 <=? n)%nat && (n <=? 90)%nat then ascii_of_nat (n + 32) else c.

Fixpoint lower_string (s : string) : string :=
  match s with
  | EmptyString => EmptyString
  | String c s' => String (lower_ascii c) (lower_string s')
  end.

(** [v.lower()]: only str has the method. *)
Definition lower (v : json) : pure string :=
  match v with
  | JStr s => ret (lower_string s)
  | _ => raise AttributeError
  end.

(** Python's [None] or an int, as the value it is. *)
Definition of_id (o : option Z) : json :=
  match o with
  | Some z => JInt z
  | None => JNull
  end.

Fixpoint for_each {S A} (l : list A) (body : A -> M S unit) : M S unit :=
  match l with
  | [] => ret tt
  | x :: rest => exec body x; for_each rest body
  end.

(** ** entity_dao.py *)

Module EntityDAO.

(** *** The Elasticsearch cluster the DAO talks to

    The engine is outside the sources.  What the DAO relies on is modelled
    here: named indices created with a body, documents addressed by
    (doc_type, id) inside an index, [indices.delete] failing with
    [NotFoundError] on a missing index, [indices.create] failing on an
    existing one, and the two forms of [update] used by [insert_entity].
    An [update] addressed to a missing index fails: the constructor of the
    DAO creates the index before any document is written. *)

(** The document kept for an entity: the five fields [insert_entity] writes
    and the [datasets] array maintained by its script ([None]: the field is
    absent or null). *)
Record source : Type := {
  src_entity : string;
  src_description : list (string * string);
  src_label : list (string * string);
  src_alt_label : list (string * list string);
  src_label_suggest : list string;
  src_datasets : option (list Z)
}.

Record es_index : Type := {
  ix_body : json;
  ix_docs : gmap (string * string) source
}.

Abbreviation cluster := (gmap string es_index).

Definition indices_exists (index : string) : M cluster bool :=
  fun es => (inr (bool_decide (is_Some (es !! index))), es).

Definition indices_delete (index : string) : M cluster unit :=
  fun es => match es !! index with
            | Some _ => (inr tt, delete index es)
            | None => (inl NotFoundError, es)
            end.

Definition indices_create (index : string) (body : json) : M cluster unit :=
  fun es => match es !! index with
            | Some _ => (inl RequestError, es)
            | None => (inr tt, <[index := {| ix_body := body; ix_docs := ∅ |}]> es)
            end.

Fixpoint obj_set {V} (k : string) (v : V) (o : list (string * V)) : list (string * V) :=
  match o with
  | [] => [(k, v)]
  | (k', v') :: o' => if String.eqb k k' then (k, v) :: o' else (k', v') :: obj_set k v o'
  end.

(** Merge of a partial object into a stored one: keys of [new] replace or
    extend those of [old], the other keys of [old] stay. *)
Definition merge_obj {V} (old new : list (string * V)) : list (string * V) :=
  fold_left (fun acc kv => obj_set (fst kv) (snd kv) acc) new old.

(** [update(body={"doc": doc, "doc_as_upsert": True})]: [doc] becomes the
    document when there is none, and is merged into the stored one otherwise
    (objects key by key, strings and arrays replaced); fields that [doc] does
    not mention are kept. *)
Definition merge_doc (old doc : source) : source :=
  {| src_entity := src_entity doc;
     src_description := merge_obj (src_description old) (src_description doc);
     src_label := merge_obj (src_label old) (src_label doc);
     src_alt_label := merge_obj (src_alt_label old) (src_alt_label doc);
     src_label_suggest := src_label_suggest doc;
     src_datasets := src_datasets old |}.

Definition put_doc (index : string) (ix : es_index) (key : string * string)
    (src : source) (es : cluster) : cluster :=
  <[index := {| ix_body := ix_body ix; ix_docs := <[key := src]> (ix_docs ix) |}]> es.

Definition update_doc_as_upsert (index doc_type id : string) (doc : source)
    : M cluster unit :=
  fun es => match es !! index with
            | None => (inl NotFoundError, es)
            | Some ix =>
                let src := match ix_docs ix !! (doc_type, id) with
                           | Some old => merge_doc old doc
                           | None => doc
                           end in
                (inr tt, put_doc index ix (doc_type, id) src es)
            end.

(** [update(body={"script": ...})]: the script runs on the stored document;
    a missing document is an error. *)
Definition update_script (index doc_type id : string) (script : source -> source)
    : M cluster unit :=
  fun es => match es !! index with
            | None => (inl NotFoundError, es)
            | Some ix =>
                match ix_docs ix !! (doc_type, id) with
                | Some old => (inr tt, put_doc index ix (doc_type, id) (script old) es)
                | None => (inl NotFoundError, es)
                end
            end.

(** *** class EntityDAO *)

(** [self.index], [self.type], [self.dataset_id]. *)
Record dao : Type := {
  dao_index : string;
  dao_type : string;
  dao_dataset_id : Z
}.

(** The entity handed to [insert_entity]: a dict with the keys [entity],
    [label], [description] (language code to text) and [alt_label] (language
    code to list of texts), each dict in insertion order. *)
Record entity_dict : Type := {
  entity : string;
  label : list (string * string);
  description : list (string * string);
  alt_label : list (string * list string)
}.

Definition suggest_field : json :=
  JDict [("type", JStr "completion");
         ("analyzer", JStr "my_custom_analyzer");
         ("search_analyzer", JStr "standard");
         ("preserve_separators", JBool false);
         ("preserve_position_increments", JBool false)].

Definition index_body (self : dao) : json :=
  JDict
    [("mappings",
      JDict [(dao_type self,
              JDict [("properties",
                      JDict [("entity", JDict [("type", JStr "string")]);
                             ("description", JDict [("type", JStr "object")]);
                             ("label", JDict [("type", JStr "object")]);
                             ("alt_label", JDict [("type", JStr "object")]);
                             ("label_suggest", suggest_field)]);
                     ("dynamic", JBool true)])]);
     ("settings",
      JDict [("analysis",
              JDict [("analyzer",
                      JDict [("my_custom_analyzer",
                              JDict [("type", JStr "custom");
                                     ("tokenizer", JStr "standard");
                                     ("filter", JList [JStr "lowercase";
                                                       JStr "my_ascii_folding"])])]);
                     ("filter",
                      JDict [("my_ascii_folding",
                              JDict [("type", JStr "asciifolding");
                                     ("preserve_original", JBool true)])])])])].

Definition generate_index (self : dao) (indexName : string) : M cluster unit :=
  let body := index_body self in
  exec try_except (indices_delete indexName)
         (fun e => match e with
                   | NotFoundError => Some (ret tt)
                   | _ => None
                   end);
  indices_create indexName body.

(** [__init__]. *)
Definition init (dataset_type : string) (dataset_id : Z) : M cluster dao :=
  let self := {| dao_index := "entities"; dao_type := dataset_type;
                 dao_dataset_id := dataset_id |} in
  do present <- indices_exists (dao_index self);
  exec (if negb present then generate_index self (dao_index self) else ret tt);
  ret self.

(** The inline painless script of [insert_entity], with [params.dataset]. *)
Definition script (dataset : Z) (src : source) : source :=
  let set ds := {| src_entity := src_entity src;
                   src_description := src_description src;
                   src_label := src_label src;
                   src_alt_label := src_alt_label src;
                   src_label_suggest := src_label_suggest src;
                   src_datasets := Some ds |} in
  match src_datasets src with
  | None => set [dataset]
  | Some ds => if negb (existsb (Z.eqb dataset) ds) then set (ds ++ [dataset]) else src
  end.

Definition insert_entity (self : dao) (entity0 : entity_dict) : M cluster unit :=
  let alt_labels := map snd (alt_label entity0) in
  let suggestions := map snd (label entity0) ++ concat alt_labels in
  let full_doc := {| src_entity := entity entity0;
                     src_description := description entity0;
                     src_label := label entity0;
                     src_alt_label := alt_label entity0;
                     src_label_suggest := suggestions;
                     src_datasets := None |} in
  let entity_uuid := entity entity0 in
  exec update_doc_as_upsert (dao_index self) (dao_type self) entity_uuid full_doc;
  update_script (dao_index self) (dao_type self) entity_uuid
                (script (dao_dataset_id self)).

(** *** suggest_entity *)

(** The attributes [EntityDTO.__init__] reads from the suggested document. *)
Record EntityDTO : Type := {
  dto_entity : json;
  dto_label : json;
  dto_description : json;
  dto_alt_label : json
}.

Definition EntityDTO_init (entity_dict0 : json) : pure EntityDTO :=
  do e <- getitem_str entity_dict0 "entity";
  do l <- getitem_str entity_dict0 "label";
  do d <- getitem_str entity_dict0 "description";
  do a <- getitem_str entity_dict0 "alt_label";
  ret {| dto_entity := e; dto_label := l; dto_description := d; dto_alt_label := a |}.

Section Suggest.

(** [DTOClass.to_dict] is inherited from data_access_base, which is not
    among the sources: it is a parameter. *)
Variable to_dict : EntityDTO -> json.

(** The local list [entities] is the state: what was appended before an
    exception is still there when a handler runs. *)
Definition append (x : json) : M (list json) unit :=
  fun entities => (inr tt, entities ++ [x]).
Definition assign (l : list json) : M (list json) unit :=
  fun _ => (inr tt, l).

(** [resp['entities'][0]['options']], as the [for] loop visits it. *)
Definition options (resp : json) : pure (list json) :=
  do e <- getitem_str resp "entities";
  do e0 <- getitem_int e 0;
  do o <- getitem_str e0 "options";
  iter o.

(** The dict appended for a suggested document. *)
Definition make_item (entity0 : json) : pure json :=
  do src <- getitem_str entity0 "_source";
  do es_entity <- EntityDTO_init src;
  do text <- getitem_str entity0 "text";
  ret (JDict [("entity", to_dict es_entity); ("text", text)]).

(** [self.dataset_id in entity['_source']['datasets']]. *)
Definition in_dataset (dataset_id : Z) (entity0 : json) : pure bool :=
  do src <- getitem_str entity0 "_source";
  do ds <- getitem_str src "datasets";
  contains_int dataset_id ds.

(** One turn of the loop: the inner [try] with its handler. *)
Definition suggest_option (dataset_id : Z) (entity0 : json) : M (list json) unit :=
  try_except
    (do hit <- lift (in_dataset dataset_id entity0);
     if hit then
       do item <- lift (make_item entity0);
       append item
     else ret tt)
    (fun e => match e with
              | KeyError invalid_key =>
                  if negb (String.eqb (str_KeyError invalid_key) "datasets")
                  then None
                  else Some (ret tt)
              | _ => None
              end).

(** [resp] is the answer of [self.es.suggest]. *)
Definition suggest_entity (self : dao) (resp : json) : result (list json) :=
  let body :=
    try_except
      (do opts <- lift (options resp);
       for_each opts (suggest_option (dao_dataset_id self)))
      (fun e => match e with
                | KeyError invalid_key =>
                    Some (if String.eqb (str_KeyError invalid_key) "entities"
                          then assign []
                          else ret tt)
                | _ => None
                end) in
  match body [] with
  | (inr _, entities) => inr entities
  | (inl e, _) => inl e
  end.

End Suggest.

End EntityDAO.

(** ** dataset_prediction.py *)

(** *** Collaborators of the endpoints

    [data_access.DatasetDAO], the dataset object it builds and
    [kgeserver.server.Server] are outside the sources.  They are taken as
    given functions; every call to one of them is recorded, in order, in the
    trace the handlers thread. *)

Record DatasetDTO : Type := {
  to_dict : json
}.

(** [get_entity_id] answers [None] for a reference the dataset does not know. *)
Record Dataset : Type := {
  get_entity_id : json -> option Z;
  get_entity : Z -> json
}.

(** The search index with the [server.Server] wrapped around it; a query
    answers a list of (entity id, distance) pairs. *)
Record Server : Type := {
  similarity_by_id : Z -> Z -> Z -> list (Z * Q);
  similarity_by_embedding : json -> Z -> Z -> list (Z * Q);
  distance_between_entities : Z -> Z -> Q
}.

(** The two lookups answer a pair (object or [None], error); the error is
    kept as the text [str(err)] gives. *)
Record DatasetDAO : Type := {
  get_dataset_by_id : Z -> option DatasetDTO * string;
  build_dataset_object : DatasetDTO -> Dataset;
  get_search_index : DatasetDTO -> option Server * string
}.

Inductive event : Type :=
| GetDatasetById (dataset_id : Z)
| BuildDatasetObject
| GetSearchIndex
| GetEntityId (entity : json)
| GetEntity (entity_id : Z)
| SimilarityById (entity_id n search_k : Z)
| SimilarityByEmbedding (embedding : json) (n search_k : Z)
| DistanceBetweenEntities (id_x id_y : Z).

Abbreviation trace := (list event).

Definition call {A} (ev : event) (a : A) : M trace A :=
  fun tr => (inr a, tr ++ [ev]).

Fixpoint map_M {S A B} (f : A -> M S B) (l : list A) : M S (list B) :=
  match l with
  | [] => ret []
  | x :: rest => do y <- f x; do ys <- map_M f rest; ret (y :: ys)
  end.

(** *** The falcon request and response *)

(** A query parameter that is present: an integer, or something else. *)
Inductive param_value : Type :=
| IntValue (z : Z)
| NotAnInt.

(** [stream] is what [json.loads(req.stream.read().decode('utf-8'))] yields:
    [None] when the body is not JSON text. *)
Record request : Type := {
  params : list (string * param_value);
  stream : option json
}.

Fixpoint get_param (ps : list (string * param_value)) (name : string) : option param_value :=
  match ps with
  | [] => None
  | (n, v) :: ps' => if String.eqb name n then Some v else get_param ps' name
  end.

(** [req.get_param_as_int(name)]: [None] for a missing parameter, an error
    for one that is not an integer. *)
Definition get_param_as_int (req : request) (name : string) : pure (option Z) :=
  match get_param (params req) name with
  | None => ret None
  | Some (IntValue z) => ret (Some z)
  | Some NotAnInt => raise (HTTPInvalidParam "The value must be an integer." name)
  end.

Definition json_loads (req : request) : pure json :=
  match stream req with
  | Some body => ret body
  | None => raise JSONDecodeError
  end.

(** What is handed to [json.dumps]: a value, or the error object
    [{"status": status, "message": message}] whose message is a formatted
    text. *)
Inductive payload : Type :=
| Value (v : json)
| ErrorObject (status : Z) (message : message).

Record response : Type := {
  body : payload;
  content_type : string;
  status : string
}.

Definition HTTP_200 : string := "200 OK".
Definition HTTP_400 : string := "400 Bad Request".

Module PredictSimilarEntitiesResource.

(** One element of the list comprehensions over the neighbours. *)
Definition similar_entity (dataset : Dataset) (pair : Z * Q) : M trace json :=
  let '(e_id, dist) := pair in
  do e <- call (GetEntity e_id) (get_entity dataset e_id);
  ret (JDict [("entity", e); ("distance", JFloat dist)]).

Definition on_get (dataset_dao : DatasetDAO) (req : request) (dataset_id : Z)
    (entity : json) (embedding : bool) : M trace response :=
  do '(dataset_dto, err) <- call (GetDatasetById dataset_id)
                                 (get_dataset_by_id dataset_dao dataset_id);
  match dataset_dto with
  | None => raise (HTTPNotFound [Lit err])
  | Some dataset_dto =>
  do dataset <- call BuildDatasetObject (build_dataset_object dataset_dao dataset_dto);
  do '(search_index, err) <- call GetSearchIndex (get_search_index dataset_dao dataset_dto);
  match search_index with
  | None => raise (HTTPConflict "Dataset not ready perform search operation" [Lit err])
  | Some search_server =>
  do limit <- lift (get_param_as_int req "limit");
  let limit := match limit with
               | None => 10
               | Some l => l
               end in
  let limit := limit + 1 in
  do search_k <- lift (get_param_as_int req "search_k");
  let search_k := match search_k with
                  | None => -1
                  | Some k => k
                  end in
  do '(similar_entities, entity_used) <-
    (if embedding then
       do similar_entities <- call (SimilarityByEmbedding entity limit search_k)
                                   (similarity_by_embedding search_server entity limit search_k);
       do similar_entities <- map_M (similar_entity dataset) similar_entities;
       ret (similar_entities,
            JDict [("value", entity); ("type", JStr "embedding")])
     else
       do entity_id <- call (GetEntityId entity) (get_entity_id dataset entity);
       match entity_id with
       | None => raise (HTTPNotFound [Lit "The "; Arg entity;
                                      Lit " entity can't be found inside dataset."])
       | Some entity_id =>
       do sim_entities <- call (SimilarityById entity_id limit search_k)
                               (similarity_by_id search_server entity_id limit search_k);
       do similar_entities <- map_M (similar_entity dataset) sim_entities;
       do value <- call (GetEntity entity_id) (get_entity dataset entity_id);
       ret (similar_entities,
            JDict [("value", value); ("type", JStr "uri")])
       end);
  ret {| body := Value
                   (JDict [("dataset", to_dict dataset_dto);
                           ("similar_entities",
                            JDict [("entity", entity_used);
                                   ("limit", JInt (Z.of_nat (length similar_entities)));
                                   ("search_k", JInt search_k);
                                   ("response", JList similar_entities)])]);
         content_type := "application/json";
         status := HTTP_200 |}
  end
  end.

(** [body['entity'][key]]. *)
Definition entity_field (body0 : json) (key : string) : pure json :=
  do e <- getitem_str body0 "entity";
  getitem_str e key.

Definition on_post (dataset_dao : DatasetDAO) (req : request) (dataset_id : Z)
    : M trace response :=
  do body0 <- lift (json_loads req);
  do has_entity <- lift (contains_str "entity" body0);
  do has_type <- (if has_entity
                  then lift (do e <- getitem_str body0 "entity"; contains_str "type" e)
                  else ret false);
  do errmsg <-
    (if has_type then
       do t <- lift (do t <- entity_field body0 "type"; lower t);
       if String.eqb t "uri" then
         do value <- lift (entity_field body0 "value");
         do resp <- on_get dataset_dao req dataset_id value false;
         ret (inl resp)
       else
         do t <- lift (do t <- entity_field body0 "type"; lower t);
         if String.eqb t "embedding" then
           do value <- lift (entity_field body0 "value");
           do resp <- on_get dataset_dao req dataset_id value true;
           ret (inl resp)
         else
           do ty <- lift (entity_field body0 "type");
           do e <- lift (getitem_str body0 "entity");
           ret (inr [Lit "The type '"; Arg ty; Lit "' of the entity "; Arg e;
                     Lit " is not recognized. Please, take a look to the documentation."])
     else
       ret (inr [Lit "Must contain a entity object in json. Please, take a look to the documentation."]));
  match errmsg with
  | inl resp => ret resp
  | inr errmsg =>
      ret {| body := ErrorObject 400 errmsg;
             content_type := "application/json";
             status := HTTP_400 |}
  end.

End PredictSimilarEntitiesResource.

Module DistanceTriples.

(** The [try] block of [on_post] with its [except] clause: it yields
    [entity_x] and [entity_y]. *)
Definition read_body (req : request) : M trace (json * json) :=
  let extra := "Couldn't decode the input stream (body)." in
  try_except
    (do body0 <- lift (json_loads req);
     do has_distance <- lift (contains_str "distance" body0);
     exec (if negb has_distance then raise (HTTPMissingParam "distance") else ret tt);
     do not_list <- lift (do d <- getitem_str body0 "distance";
                          ret (negb (isinstance_list d)));
     do invalid <- (if not_list
                    then lift (do d <- getitem_str body0 "distance";
                               do n <- len d;
                               ret (negb (Z.eqb n 2)))
                    else ret false);
     exec (if invalid
           then raise (HTTPInvalidParam
                         "The param 'distance' must contain a list of twoentities."
                         "distance")
           else ret tt);
     do entity_x <- lift (do d <- getitem_str body0 "distance"; getitem_int d 0);
     do entity_y <- lift (do d <- getitem_str body0 "distance"; getitem_int d 1);
     ret (entity_x, entity_y))
    (fun err =>
       match err with
       | JSONDecodeError | KeyError _ | ValueError | TypeError =>
           Some (raise (HTTPBadRequest
                          "HTTP Body request not loaded correctly"
                          [Lit ("The body couldn't be correctly loaded from HTTP request. "
                                ++ "Please, read the documentation carefully and try again. "
                                ++ "Extra info: " ++ extra)%string]))
       | _ => None
       end).

(** The text of the 404 raised for an unresolved reference. *)
Definition not_found_description (id_x : option Z) (entity_x : json)
    (id_y : option Z) (entity_y : json) : message :=
  [Lit "The "; Arg (of_id id_x); Lit " id from entity "; Arg entity_x;
   Lit " or the "; Arg (of_id id_y); Lit " id from "; Arg entity_y;
   Lit " entity can't be found on the dataset"].

Definition on_post (dataset_dao : DatasetDAO) (req : request) (dataset_id : Z)
    : M trace response :=
  do '(entity_x, entity_y) <- read_body req;
  do '(dataset_dto, err) <- call (GetDatasetById dataset_id)
                                 (get_dataset_by_id dataset_dao dataset_id);
  match dataset_dto with
  | None => raise (HTTPNotFound [Lit err])
  | Some dataset_dto =>
  do dataset <- call BuildDatasetObject (build_dataset_object dataset_dao dataset_dto);
  do '(search_index, err) <- call GetSearchIndex (get_search_index dataset_dao dataset_dto);
  match search_index with
  | None => raise (HTTPConflict "Dataset not ready perform search operation" [Lit err])
  | Some search_server =>
  do id_x <- call (GetEntityId entity_x) (get_entity_id dataset entity_x);
  do id_y <- call (GetEntityId entity_y) (get_entity_id dataset entity_y);
  match id_x, id_y with
  | Some x, Some y =>
      do dist <- call (DistanceBetweenEntities x y)
                      (distance_between_entities search_server x y);
      ret {| body := Value (JDict [("distance", JFloat dist)]);
             content_type := "application/json";
             status := HTTP_200 |}
  | _, _ => raise (HTTPNotFound (not_found_description id_x entity_x id_y entity_y))
  end
  end
  end.

End DistanceTriples.

(** ** algorithm_dao.py *)

Module AlgorithmDAO.

(** A row of a query result, and a dict built from one: the columns with
    their values, in order.  [row[key]] and [dict[key]] read the first binding
    of the key. *)
Abbreviation row := (list (string * json)).

(** [execute_query] and [execute_insertion] are inherited from
    [data_access_base.MainDAO], which is not among the sources: they are
    parameters.  A query answers [None] or its rows; an insertion answers the
    [lastrowid] of its cursor or raises [sqlite3.OperationalError], kept as
    the text [str(err)] gives. *)
Record MainDAO : Type := {
  execute_query : string -> list json -> option (list row);
  execute_insertion : string -> list json -> string + Z
}.

(** [d[key] = v] on a dict. *)
Definition setitem (key : string) (v : json) : M row unit :=
  fun d => (inr tt, EntityDAO.obj_set key v d).

(** [for key in r.keys(): d[key] = r[key]], where the dict [d] is the
    state. *)
Definition copy_row (r : row) : M row unit :=
  for_each (map fst r)
    (fun key => do v <- lift (getitem_str (JDict r) key); setitem key v).

(** The state is [self.algorithm]; a returned dict that is [self.algorithm]
    is the state at the time of the return. *)
Definition get_algorithm_by_id (self : MainDAO) (algorithm_id : json)
    : M row (option row * option (Z * message)) :=
  match algorithm_id with
  | JNull => fun algorithm => (inr (Some algorithm, None), algorithm)
  | _ =>
      let query := "SELECT * FROM algorithm WHERE id=?" in
      let res := execute_query self query [algorithm_id] in
      match res with
      | None | Some [] =>
          ret (None, Some (404, [Lit "Algorithm "; Arg algorithm_id; Lit " not found"]))
      | Some (res0 :: _) =>
          exec copy_row res0;
          fun algorithm => (inr (Some algorithm, None), algorithm)
      end
  end.

(** The dict [algorithm] built for one row of [get_all_algorithms]. *)
Definition algorithm_of_row (r : row) : result row :=
  match copy_row r [] with
  | (inr _, algorithm) => inr algorithm
  | (inl e, _) => inl e
  end.

Fixpoint all_rows (res : list row) (algorithm_list : list row) : result (list row) :=
  match res with
  | [] => inr algorithm_list
  | r :: rest =>
      match algorithm_of_row r with
      | inr algorithm => all_rows rest (algorithm_list ++ [algorithm])
      | inl e => inl e
      end
  end.

Definition get_all_algorithms (self : MainDAO)
    : result (list row * option (Z * message)) :=
  let query := "SELECT * FROM algorithm" in
  let res := execute_query self query [] in
  match res with
  | None => inl TypeError
  | Some rows =>
      match all_rows rows [] with
      | inr algorithm_list => inr (algorithm_list, None)
      | inl e => inl e
      end
  end.

(** The three lists [insert_algorithm] fills in its loop. *)
Record insert_locals : Type := {
  values_tuple : list json;
  values_protect : string;
  param_tuple : list string
}.

Definition insert_step (algorithm_dict : row) (param : string) : M insert_locals unit :=
  if String.eqb param "id" then ret tt
  else
    exec (fun st => (inr tt, {| values_tuple := values_tuple st;
                                values_protect := values_protect st;
                                param_tuple := param_tuple st ++ [param] |}));
    do v <- lift (getitem_str (JDict algorithm_dict) param);
    fun st => (inr tt, {| values_tuple := values_tuple st ++ [v];
                          values_protect := String.append (values_protect st) "?,";
                          param_tuple := param_tuple st |}).

(** [s[:-1]]. *)
Fixpoint drop_last (s : string) : string :=
  match s with
  | EmptyString => EmptyString
  | String c EmptyString => EmptyString
  | String c s' => String c (drop_last s')
  end.

Section Insert.

(** Python's [repr] of a str, as [str(tuple)] applies it to each element. *)
Variable repr : string -> string.

Fixpoint join_reprs (l : list string) : string :=
  match l with
  | [] => EmptyString
  | [x] => repr x
  | x :: rest => String.append (repr x) (String.append ", " (join_reprs rest))
  end.

(** [str(tuple(l))]. *)
Definition str_tuple (l : list string) : string :=
  match l with
  | [] => "()"
  | [x] => String.append "(" (String.append (repr x) ",)")
  | _ => String.append "(" (String.append (join_reprs l) ")")
  end.

(** The locals after the loop and the slice. *)
Definition insert_build (algorithm_dict : row) : result insert_locals :=
  match for_each (map fst algorithm_dict) (insert_step algorithm_dict)
          {| values_tuple := []; values_protect := ""; param_tuple := [] |} with
  | (inr _, st) => inr {| values_tuple := values_tuple st;
                          values_protect := drop_last (values_protect st);
                          param_tuple := param_tuple st |}
  | (inl e, _) => inl e
  end.

(** [query.format(tuple(param_tuple), values_protect)]. *)
Definition insert_query (st : insert_locals) : string :=
  String.append "INSERT INTO algorithm "
    (String.append (str_tuple (param_tuple st))
       (String.append " VALUES (" (String.append (values_protect st) ")"))).

Definition insert_algorithm (self : MainDAO) (algorithm_dict : row)
    : result (option Z * option (Z * string)) :=
  match insert_build algorithm_dict with
  | inl e => inl e
  | inr st =>
      let query := insert_query st in
      match execute_insertion self query (values_tuple st) with
      | inl err =>
          inr (None, Some (400, String.append "One of the parameters is not valid. " err))
      | inr rowid => inr (Some rowid, None)
      end
  end.

End Insert.

End AlgorithmDAO.

(** ** Concrete scenarios *)

Module Scenario.

(** Dataset D1 of the specification's example: Q1, Q2 and Q3 with the
    internal ids 1, 2 and 3. *)
Definition entity_name (i : Z) : string :=
  if Z.eqb i 1 then "Q1" else if Z.eqb i 2 then "Q2" else if Z.eqb i 3 then "Q3" else "".

Definition d1_dataset : Dataset :=
  {| get_entity_id := fun e =>
       if is_str "Q1" e then Some 1
       else if is_str "Q2" e then Some 2
       else if is_str "Q3" e then Some 3
       else None;
     get_entity := fun i => JDict [("entity", JStr (entity_name i))] |}.

(** The oracle answers the [n] nearest of Q1, Q2, Q3 (at 0.0, 0.4, 0.9). *)
Definition d1_neighbours : list (Z * Q) :=
  [(1, (0 # 1)%Q); (2, (4 # 10)%Q); (3, (9 # 10)%Q)].

Definition d1_server : Server :=
  {| similarity_by_id := fun _ n _ => take (Z.to_nat n) d1_neighbours;
     similarity_by_embedding := fun _ n _ => take (Z.to_nat n) d1_neighbours;
     distance_between_entities := fun _ _ => (4 # 10)%Q |}.

Definition d1_dto : DatasetDTO := {| to_dict := JDict [("id", JInt 1)] |}.

Definition d1_dao : DatasetDAO :=
  {| get_dataset_by_id := fun i => if Z.eqb i 1 then (Some d1_dto, "")
                                   else (None, "dataset not found");
     build_dataset_object := fun _ => d1_dataset;
     get_search_index := fun _ => (Some d1_server, "") |}.

Definition item (name : string) (dist : Q) : json :=
  JDict [("entity", JDict [("entity", JStr name)]); ("distance", JFloat dist)].

Definition get_req (ps : list (string * param_value)) : request :=
  {| params := ps; stream := None |}.

Definition post_req (body0 : json) : request :=
  {| params := []; stream := Some body0 |}.

(** A suggested document, with or without its [datasets] field. *)
Definition doc_source (name : string) (datasets : option (list Z)) : json :=
  JDict ([("entity", JStr name); ("label", JDict []); ("description", JDict []);
          ("alt_label", JDict [])]
         ++ match datasets with
            | Some ds => [("datasets", JList (map JInt ds))]
            | None => []
            end).

Definition suggestion (name : string) (datasets : option (list Z)) : json :=
  JDict [("text", JStr name); ("_source", doc_source name datasets)].

Definition suggest_response (opts : list json) : json :=
  JDict [("entities", JList [JDict [("text", JStr "Q"); ("options", JList opts)]])].

Definition dto_dict (d : EntityDAO.EntityDTO) : json :=
  JDict [("entity", EntityDAO.dto_entity d); ("label", EntityDAO.dto_label d);
         ("description", EntityDAO.dto_description d);
         ("alt_label", EntityDAO.dto_alt_label d)].

Definition paris : EntityDAO.entity_dict :=
  {| EntityDAO.entity := "Q1";
     EntityDAO.label := [("en", "Paris")];
     EntityDAO.description := [("en", "capital of France")];
     EntityDAO.alt_label := [("en", ["City of Light"; "Paname"])] |}.

(** Two DAOs of the same document type for the datasets 1 and 2, and the
    cluster as the constructor of the first leaves an empty one. *)
Definition dao_1 : EntityDAO.dao :=
  {| EntityDAO.dao_index := "entities"; EntityDAO.dao_type := "wikidata";
     EntityDAO.dao_dataset_id := 1 |}.

Definition dao_2 : EntityDAO.dao :=
  {| EntityDAO.dao_index := "entities"; EntityDAO.dao_type := "wikidata";
     EntityDAO.dao_dataset_id := 2 |}.

Definition fresh_index : EntityDAO.es_index :=
  {| EntityDAO.ix_body := EntityDAO.index_body dao_1; EntityDAO.ix_docs := ∅ |}.

Definition fresh_cluster : EntityDAO.cluster := snd (EntityDAO.init "wikidata" 1 ∅).

(** An answer of the engine with three candidates: Q1 of dataset 1, Q2 with
    no [datasets] field, Q3 of datasets 1 and 2. *)
Definition three_candidates : json :=
  suggest_response [suggestion "Q1" (Some [1]); suggestion "Q2" None;
                    suggestion "Q3" (Some [1; 2])].

(** The entry [suggest_entity] appends for a candidate. *)
Definition entry (name : string) : json :=
  JDict [("entity", JDict [("entity", JStr name); ("label", JDict []);
                          ("description", JDict []); ("alt_label", JDict [])]);
         ("text", JStr name)].


(** A candidate of dataset 1 that has no [text] member. *)
Definition suggestion_without_text (name : string) : json :=
  JDict [("_source", doc_source name (Some [1]))].

(** An answer of the engine with three candidates of dataset 1, the second
    without its [text]. *)
Definition text_missing : json :=
  suggest_response [suggestion "Q1" (Some [1]); suggestion_without_text "Q2";
                    suggestion "Q3" (Some [1])].

(** A body asking by embedding, with the type in mixed case, and what
    [on_get] answers and calls for it on D1. *)
Definition half_vector : json := JList [JFloat (1 # 2)%Q].

Definition embedding_body : json :=
  JDict [("entity", JDict [("type", JStr "Embedding"); ("value", half_vector)])].

Definition embedding_answer : response :=
  {| body := Value
               (JDict [("dataset", JDict [("id", JInt 1)]);
                       ("similar_entities",
                        JDict [("entity", JDict [("value", half_vector);
                                                 ("type", JStr "embedding")]);
                               ("limit", JInt 3);
                               ("search_k", JInt (-1));
                               ("response", JList [item "Q1" (0 # 1)%Q;
                                                   item "Q2" (4 # 10)%Q;
                                                   item "Q3" (9 # 10)%Q])])]);
     content_type := "application/json";
     status := HTTP_200 |}.

Definition embedding_trace : trace :=
  [GetDatasetById 1; BuildDatasetObject; GetSearchIndex;
   SimilarityByEmbedding half_vector 11 (-1); GetEntity 1; GetEntity 2; GetEntity 3].

End Scenario.

(** A database with two algorithms. *)
Module AlgorithmScenario.

Definition transe : AlgorithmDAO.row :=
  [("id", JInt 1); ("embedding_size", JInt 100); ("max_epochs", JInt 50)].

Definition transe_big : AlgorithmDAO.row :=
  [("id", JInt 2); ("embedding_size", JInt 300); ("max_epochs", JInt 80)].

Definition db : AlgorithmDAO.MainDAO :=
  {| AlgorithmDAO.execute_query := fun query args =>
       if String.eqb query "SELECT * FROM algorithm" then Some [transe; transe_big]
       else match args with
            | [JInt 1] => Some [transe]
            | [JInt 2] => Some [transe_big]
            | _ => Some []
            end;
     AlgorithmDAO.execute_insertion := fun query values =>
       match values with
       | [] => inl "incomplete input"
       | _ => inr 3
       end |}.

(** A database that cannot be read. *)
Definition closed_db : AlgorithmDAO.MainDAO :=
  {| AlgorithmDAO.execute_query := fun _ _ => None;
     AlgorithmDAO.execute_insertion := fun _ _ => inl "unable to open database file" |}.

End AlgorithmScenario.

(** ** Notions used to state the properties *)

(** The [datasets] array after the script ran with [d]. *)
Definition add_dataset (d : Z) (old : option (list Z)) : list Z :=
  match old with
  | None => [d]
  | Some ds => if existsb (Z.eqb d) ds then ds else ds ++ [d]
  end.

(** The [datasets] array of the document stored under [key], if any. *)
Definition stored_datasets (ix : EntityDAO.es_index) (key : string * string)
    : option (list Z) :=
  match EntityDAO.ix_docs ix !! key with
  | Some src => EntityDAO.src_datasets src
  | None => None
  end.


(** The list under ["similar_entities"]["response"] of an answer. *)
Definition similar_list (resp : response) : list json :=
  match body resp with
  | Value v =>
      match run (do s <- getitem_str v "similar_entities"; getitem_str s "response") with
      | inr (JList l) => l
      | _ => []
      end
  | ErrorObject _ _ => []
  end.

(** The entry of the answer for a neighbour the oracle returned. *)
Definition shaped (dataset : Dataset) (pair : Z * Q) : json :=
  JDict [("entity", get_entity dataset (fst pair)); ("distance", JFloat (snd pair))].

(** The value a query parameter takes in [on_get] when it is left out. *)
Definition or_default (d : Z) (o : option Z) : Z :=
  match o with
  | Some z => z
  | None => d
  end.

(** The request with the integer [v] passed for the query parameter [name]. *)
Definition with_param (name : string) (v : Z) (req : request) : request :=
  {| params := (name, IntValue v) :: params req; stream := stream req |}.

(** The document stored in [index] under [key], if any. *)
Definition stored_doc (es : EntityDAO.cluster) (index : string) (key : string * string)
    : option EntityDAO.source :=
  match es !! index with
  | Some ix => EntityDAO.ix_docs ix !! key
  | None => None
  end.


(** The calls that reach the vector index: the two similarity queries and
    the distance. *)
Definition is_query (ev : event) : bool :=
  match ev with
  | SimilarityById _ _ _ | SimilarityByEmbedding _ _ _ | DistanceBetweenEntities _ _ => true
  | _ => false
  end.

(** The query [on_get] makes in each mode: by embedding the vector itself is
    passed, by reference the id the entity resolved to. *)
Definition query_event (embedding : bool) (entity : json) (id n k : Z) : event :=
  if embedding then SimilarityByEmbedding entity n k else SimilarityById id n k.

(** The field [name] of the ["similar_entities"] object of an answer. *)
Definition similar_field (resp : response) (name : string) : option json :=
  match body resp with
  | Value v =>
      match run (do s <- getitem_str v "similar_entities"; getitem_str s name) with
      | inr x => Some x
      | inl _ => None
      end
  | ErrorObject _ _ => None
  end.

(** [n] question marks separated by commas. *)
Fixpoint marks (n : nat) : string :=
  match n with
  | O => EmptyString
  | S O => "?"
  | S n' => String "?" (String "," (marks n'))
  end.

(** The keys of a dict other than [id]. *)
Definition columns (d : AlgorithmDAO.row) : list string :=
  List.filter (fun k => negb (String.eqb k "id")) (map fst d).

(** [n] times the text the loop of [insert_algorithm] appends. *)
Fixpoint marks_raw (n : nat) : string :=
  match n with
  | O => EmptyString
  | S n' => String "?" (String "," (marks_raw n'))
  end.

(** * Properties *)

(** ** Python operations *)

Lemma str_int_first (z : Z) :
  exists c s, str_int z = String c s /\ (nat_of_ascii c < 97)%nat.
Proof.
  unfold str_int. destruct (Z.to_int z) as [d|d].
  - destruct d; eexists _, _; (split; [reflexivity|vm_compute; lia]).
  - eexists _, _. split; [reflexivity|vm_compute; lia].
Qed.

(** The text of a [KeyError] is the repr of its key (a quoted str, or the
    digits of an int): it is never a bare lower-case word, which is what the
    handlers of [suggest_entity] compare it with. *)
Lemma str_KeyError_quoted (k : pykey) (w : string) :
  (exists c s, w = String c s /\ (97 <= nat_of_ascii c)%nat) ->
  String.eqb (str_KeyError k) w = false.
Proof.
  intros (c & s & -> & Hc). destruct k as [key|z]; cbn [str_KeyError].
  - unfold repr_str. cbn [String.eqb].
    destruct (Ascii.eqb_spec "'"%char c) as [<-|Hne]; [vm_compute in Hc; lia|reflexivity].
  - destruct (str_int_first z) as (c' & s' & -> & Hc'). cbn [String.eqb].
    destruct (Ascii.eqb_spec c' c) as [<-|Hne]; [lia|reflexivity].
Qed.

Lemma str_KeyError_datasets (k : pykey) : String.eqb (str_KeyError k) "datasets" = false.
Proof. apply str_KeyError_quoted. eexists _, _. split; [reflexivity|vm_compute; lia]. Qed.

Lemma str_KeyError_entities (k : pykey) : String.eqb (str_KeyError k) "entities" = false.
Proof. apply str_KeyError_quoted. eexists _, _. split; [reflexivity|vm_compute; lia]. Qed.

Lemma for_each_app {S A} (f : A -> M S unit) (l1 l2 : list A) (st : S) :
  for_each (l1 ++ l2) f st = (exec for_each l1 f; for_each l2 f) st.
Proof.
  revert st. induction l1 as [|x l1 IH]; intros st; cbn.
  - reflexivity.
  - unfold bind. destruct (f x st) as [[e|[]] st']; [reflexivity|].
    rewrite IH. unfold bind. reflexivity.
Qed.

(** ** EntityDAO.generate_index *)

Lemma indices_delete_swallowed (index : string) (es : EntityDAO.cluster) :
  try_except (EntityDAO.indices_delete index)
    (fun e => match e with
              | NotFoundError => Some (ret tt)
              | _ => None
              end) es
  = (inr tt, delete index es).
Proof.
  unfold try_except, EntityDAO.indices_delete.
  destruct (es !! index) as [ix|] eqn:Hix; [reflexivity|].
  cbn. now rewrite delete_id.
Qed.

(** C7: provisioning deletes the index of that name and then creates it, and
    the [NotFoundError] that deleting a missing index raises is swallowed:
    whatever the cluster held, [generate_index] succeeds and leaves under the
    name a fresh index with the new body and no documents. *)
Theorem generate_index_recreates (self : EntityDAO.dao) (indexName : string)
    (es : EntityDAO.cluster) :
  EntityDAO.generate_index self indexName es
  = (inr tt,
     <[indexName := {| EntityDAO.ix_body := EntityDAO.index_body self;
                       EntityDAO.ix_docs := ∅ |}]> es)
  /\ EntityDAO.indices_delete indexName (delete indexName es)
     = (inl NotFoundError, delete indexName es).
Proof.
  split.
  - unfold EntityDAO.generate_index, bind at 1.
    rewrite indices_delete_swallowed.
    unfold EntityDAO.indices_create. rewrite lookup_delete_eq.
    now rewrite insert_delete_eq.
  - unfold EntityDAO.indices_delete. now rewrite lookup_delete_eq.
Qed.

(** ** EntityDAO.insert_entity *)

Lemma existsb_eqb_In (d : Z) (ds : list Z) : existsb (Z.eqb d) ds = true <-> In d ds.
Proof.
  rewrite existsb_exists. split.
  - intros (x & Hx & Heq). apply Z.eqb_eq in Heq. now subst.
  - intros H. exists d. split; [assumption|apply Z.eqb_refl].
Qed.

Lemma script_datasets (d : Z) (src : EntityDAO.source) :
  EntityDAO.src_datasets (EntityDAO.script d src)
  = Some (add_dataset d (EntityDAO.src_datasets src)).
Proof.
  unfold EntityDAO.script, add_dataset.
  destruct (EntityDAO.src_datasets src) as [ds|] eqn:Hds; [|reflexivity].
  destruct (existsb (Z.eqb d) ds); cbn; [assumption|reflexivity].
Qed.

Lemma add_dataset_In (d x : Z) (old : option (list Z)) :
  In x (add_dataset d old) <-> x = d \/ In x (default [] old).
Proof.
  unfold add_dataset. destruct old as [ds|]; cbn.
  - destruct (existsb (Z.eqb d) ds) eqn:He.
    + apply existsb_eqb_In in He. split; [tauto|]. intros [->|H]; assumption.
    + rewrite in_app_iff. cbn. intuition congruence.
  - intuition congruence.
Qed.


Lemma put_doc_lookup (index : string) (ix : EntityDAO.es_index) (key : string * string)
    (src : EntityDAO.source) (es : EntityDAO.cluster) :
  EntityDAO.put_doc index ix key src es !! index
  = Some {| EntityDAO.ix_body := EntityDAO.ix_body ix;
            EntityDAO.ix_docs := <[key := src]> (EntityDAO.ix_docs ix) |}.
Proof. unfold EntityDAO.put_doc. apply lookup_insert_eq. Qed.

Lemma put_doc_twice (index : string) (ix : EntityDAO.es_index) (key : string * string)
    (src src' : EntityDAO.source) (es : EntityDAO.cluster) :
  EntityDAO.put_doc index
    {| EntityDAO.ix_body := EntityDAO.ix_body ix;
       EntityDAO.ix_docs := <[key := src]> (EntityDAO.ix_docs ix) |}
    key src' (EntityDAO.put_doc index ix key src es)
  = EntityDAO.put_doc index ix key src' es.
Proof.
  unfold EntityDAO.put_doc. cbn. now rewrite !insert_insert_eq.
Qed.

(** One upsert: both updates succeed on an existing index, the document of
    the entity is rewritten in place, and its [datasets] is the stored array
    with the DAO's dataset added if it was missing. *)
Lemma insert_entity_run (self : EntityDAO.dao) (e : EntityDAO.entity_dict)
    (es : EntityDAO.cluster) (ix : EntityDAO.es_index) :
  es !! EntityDAO.dao_index self = Some ix ->
  exists src,
    EntityDAO.insert_entity self e es
    = (inr tt, EntityDAO.put_doc (EntityDAO.dao_index self) ix
                 (EntityDAO.dao_type self, EntityDAO.entity e) src es)
    /\ EntityDAO.src_datasets src
       = Some (add_dataset (EntityDAO.dao_dataset_id self)
                 (stored_datasets ix (EntityDAO.dao_type self, EntityDAO.entity e))).
Proof.
  intros Hix. unfold EntityDAO.insert_entity, bind.
  unfold EntityDAO.update_doc_as_upsert at 1. rewrite Hix.
  unfold EntityDAO.update_script. rewrite put_doc_lookup. cbn [EntityDAO.ix_docs].
  rewrite lookup_insert_eq. cbn [EntityDAO.ix_body].
  eexists. split.
  - f_equal. apply put_doc_twice.
  - rewrite script_datasets. unfold stored_datasets.
    destruct (EntityDAO.ix_docs ix !! _) as [old|]; reflexivity.
Qed.




(** ** EntityDAO.suggest_entity *)

Section SuggestFacts.

Variable to_dict : EntityDAO.EntityDTO -> json.

(** One turn of the loop.  The inner handler never swallows: the text of a
    [KeyError] is quoted, so it differs from [datasets]. *)
Lemma suggest_option_run (dataset_id : Z) (opt : json) (acc : list json) :
  EntityDAO.suggest_option to_dict dataset_id opt acc
  = match run (EntityDAO.in_dataset dataset_id opt) with
    | inl e => (inl e, acc)
    | inr false => (inr tt, acc)
    | inr true => match run (EntityDAO.make_item to_dict opt) with
                  | inl e => (inl e, acc)
                  | inr item => (inr tt, acc ++ [item])
                  end
    end.
Proof.
  unfold EntityDAO.suggest_option, try_except, bind, lift.
  destruct (run (EntityDAO.in_dataset dataset_id opt)) as [e|[|]].
  - destruct e; try reflexivity. now rewrite str_KeyError_datasets.
  - destruct (run (EntityDAO.make_item to_dict opt)) as [e|item]; [|reflexivity].
    destruct e; try reflexivity. now rewrite str_KeyError_datasets.
  - reflexivity.
Qed.

(** What the loop appends comes from candidates of the dataset. *)
Lemma suggest_loop_scoped (dataset_id : Z) (opts : list json) :
  forall (acc : list json) (r : result unit) (acc' : list json),
    for_each opts (EntityDAO.suggest_option to_dict dataset_id) acc = (r, acc') ->
    exists new,
      acc' = acc ++ new
      /\ Forall (fun item => exists opt,
                     In opt opts
                     /\ run (EntityDAO.in_dataset dataset_id opt) = inr true
                     /\ run (EntityDAO.make_item to_dict opt) = inr item) new.
Proof.
  induction opts as [|opt opts IH]; intros acc r acc' Hrun; cbn [for_each] in Hrun.
  - inversion Hrun. exists []. split; [now rewrite app_nil_r|constructor].
  - unfold bind in Hrun. rewrite suggest_option_run in Hrun.
    destruct (run (EntityDAO.in_dataset dataset_id opt)) as [e|[|]] eqn:Hin.
    + inversion Hrun. exists []. split; [now rewrite app_nil_r|constructor].
    + destruct (run (EntityDAO.make_item to_dict opt)) as [e|item] eqn:Hitem.
      * inversion Hrun. exists []. split; [now rewrite app_nil_r|constructor].
      * destruct (IH _ _ _ Hrun) as (new & -> & Hnew).
        exists (item :: new). split; [now rewrite <- app_assoc|].
        constructor.
        -- exists opt. split; [now left|]. split; assumption.
        -- eapply Forall_impl; [exact Hnew|].
           intros x (o & Ho & H1 & H2). exists o. split; [now right|]. split; assumption.
    + destruct (IH _ _ _ Hrun) as (new & -> & Hnew).
      exists new. split; [reflexivity|].
      eapply Forall_impl; [exact Hnew|].
      intros x (o & Ho & H1 & H2). exists o. split; [now right|]. split; assumption.
Qed.

(** The whole function.  The outer handler returns the list as it stands:
    its comparison with [entities] never holds either. *)
Lemma suggest_entity_run (self : EntityDAO.dao) (resp : json) :
  EntityDAO.suggest_entity to_dict self resp
  = match run (EntityDAO.options resp) with
    | inl (KeyError _) => inr []
    | inl e => inl e
    | inr opts =>
        match for_each opts (EntityDAO.suggest_option to_dict (EntityDAO.dao_dataset_id self)) [] with
        | (inr _, entities) => inr entities
        | (inl (KeyError _), entities) => inr entities
        | (inl e, _) => inl e
        end
    end.
Proof.
  unfold EntityDAO.suggest_entity, try_except, bind, lift.
  destruct (run (EntityDAO.options resp)) as [e|opts].
  - destruct e; try reflexivity. now rewrite str_KeyError_entities.
  - destruct (for_each opts _ []) as [[e|[]] entities]; [|reflexivity].
    destruct e; try reflexivity. now rewrite str_KeyError_entities.
Qed.

End SuggestFacts.

Lemma in_dataset_true (dataset_id : Z) (opt : json) :
  run (EntityDAO.in_dataset dataset_id opt) = inr true ->
  exists o s ds,
    opt = JDict o
    /\ dict_get o "_source" = Some (JDict s)
    /\ dict_get s "datasets" = Some ds
    /\ run (contains_int dataset_id ds) = inr true.
Proof.
  unfold EntityDAO.in_dataset, run, bind.
  destruct opt as [| | | | | |o]; cbn; try discriminate.
  destruct (dict_get o "_source") as [src|] eqn:Hsrc; cbn; [|discriminate].
  destruct src as [| | | | | |s]; cbn; try discriminate.
  destruct (dict_get s "datasets") as [ds|] eqn:Hds; cbn; [|discriminate].
  intros H. exists o, s, ds. repeat split; try assumption.
Qed.

(** C4: [suggest_entity] never lets a [KeyError] out, and every entry it
    returns was built from a candidate whose [_source] has a [datasets] field
    that contains the DAO's dataset id; a candidate without the field is
    therefore never behind a returned entry. *)
Theorem suggest_entity_scoped (to_dict : EntityDAO.EntityDTO -> json)
    (self : EntityDAO.dao) (resp : json) :
  (forall k, EntityDAO.suggest_entity to_dict self resp <> inl (KeyError k))
  /\ (forall items item,
        EntityDAO.suggest_entity to_dict self resp = inr items ->
        In item items ->
        exists opts opt o s ds,
          run (EntityDAO.options resp) = inr opts
          /\ In opt opts
          /\ opt = JDict o
          /\ dict_get o "_source" = Some (JDict s)
          /\ dict_get s "datasets" = Some ds
          /\ run (contains_int (EntityDAO.dao_dataset_id self) ds) = inr true
          /\ run (EntityDAO.make_item to_dict opt) = inr item).
Proof.
  rewrite suggest_entity_run. split.
  - intros k.
    destruct (run (EntityDAO.options resp)) as [e|opts]; [destruct e; discriminate|].
    destruct (for_each opts _ []) as [[e|[]] entities]; [destruct e|]; discriminate.
  - intros items item Hrun Hin.
    destruct (run (EntityDAO.options resp)) as [e|opts] eqn:Hopts.
    { destruct e; try discriminate. inversion Hrun; subst. destruct Hin. }
    destruct (for_each opts _ []) as [r entities] eqn:Hloop.
    assert (entities = items) as ->.
    { destruct r as [e|[]]; [destruct e|]; congruence. }
    destruct (suggest_loop_scoped to_dict _ _ _ _ _ Hloop) as (new & Heq & Hnew).
    cbn in Heq. subst new.
    rewrite Forall_forall in Hnew. apply list_elem_of_In in Hin.
    destruct (Hnew item Hin) as (opt & Hopt & Hscope & Hitem).
    destruct (in_dataset_true _ _ Hscope) as (o & s & ds & -> & Hsrc & Hds & Hc).
    exists opts, (JDict o), o, s, ds. repeat split; assumption.
Qed.

(** C6: when the engine's answer has no [entities] entry, or the entry lists
    no option, [suggest_entity] returns the empty list and raises nothing. *)
Theorem suggest_entity_no_match (to_dict : EntityDAO.EntityDTO -> json)
    (self : EntityDAO.dao) (resp : json) :
  (exists d, resp = JDict d /\ dict_get d "entities" = None)
  \/ run (EntityDAO.options resp) = inr [] ->
  EntityDAO.suggest_entity to_dict self resp = inr [].
Proof.
  intros [(d & -> & Hd)|Hnone]; rewrite suggest_entity_run.
  - unfold EntityDAO.options, run, bind. cbn. now rewrite Hd.
  - now rewrite Hnone.
Qed.

(** C9: when the candidates before one were processed without an exception
    and processing that one raises a [KeyError], whatever its key,
    [suggest_entity] returns the entries appended so far; the error does not
    reach the caller and the candidates after it are not visited. *)
Theorem suggest_entity_partial_on_KeyError (to_dict : EntityDAO.EntityDTO -> json)
    (self : EntityDAO.dao) (resp : json) (before after : list json) (opt : json)
    (entities : list json) (k : pykey) :
  run (EntityDAO.options resp) = inr (before ++ opt :: after) ->
  for_each before (EntityDAO.suggest_option to_dict (EntityDAO.dao_dataset_id self)) []
  = (inr tt, entities) ->
  run (EntityDAO.in_dataset (EntityDAO.dao_dataset_id self) opt) = inl (KeyError k)
  \/ (run (EntityDAO.in_dataset (EntityDAO.dao_dataset_id self) opt) = inr true
      /\ run (EntityDAO.make_item to_dict opt) = inl (KeyError k)) ->
  EntityDAO.suggest_entity to_dict self resp = inr entities.
Proof.
  intros Hopts Hbefore Hraise.
  rewrite suggest_entity_run, Hopts, for_each_app.
  unfold bind at 1. rewrite Hbefore. cbn [for_each]. unfold bind at 1.
  rewrite suggest_option_run.
  destruct Hraise as [->|[-> ->]]; reflexivity.
Qed.

Lemma fresh_cluster_index : Scenario.fresh_cluster !! "entities" = Some Scenario.fresh_index.
Proof. vm_compute. reflexivity. Qed.


Lemma suggest_entity_scoped_witness :
  exists opts opt o s ds,
    run (EntityDAO.options Scenario.three_candidates) = inr opts
    /\ In opt opts
    /\ opt = JDict o
    /\ dict_get o "_source" = Some (JDict s)
    /\ dict_get s "datasets" = Some ds
    /\ run (contains_int 1 ds) = inr true
    /\ run (EntityDAO.make_item Scenario.dto_dict opt) = inr (Scenario.entry "Q1").
Proof.
  apply (proj2 (suggest_entity_scoped Scenario.dto_dict Scenario.dao_1
                  Scenario.three_candidates)
           [Scenario.entry "Q1"] (Scenario.entry "Q1")).
  - reflexivity.
  - now left.
Defined.

Lemma suggest_entity_no_match_witness :
  EntityDAO.suggest_entity Scenario.dto_dict Scenario.dao_1 (JDict [("_shards", JDict [])])
  = inr [].
Proof.
  apply suggest_entity_no_match. left.
  exists [("_shards", JDict [])]. split; reflexivity.
Defined.

(** A candidate of the dataset without its [text]: building its entry raises
    [KeyError('text')], and the entry of the candidate before it is what
    comes back; the candidate after it, also of the dataset, is not visited. *)
Lemma suggest_entity_partial_on_KeyError_witness :
  EntityDAO.suggest_entity Scenario.dto_dict Scenario.dao_1 Scenario.text_missing
  = inr [Scenario.entry "Q1"].
Proof.
  apply (suggest_entity_partial_on_KeyError Scenario.dto_dict Scenario.dao_1
           Scenario.text_missing
           [Scenario.suggestion "Q1" (Some [1])]
           [Scenario.suggestion "Q3" (Some [1])]
           (Scenario.suggestion_without_text "Q2")
           [Scenario.entry "Q1"] (KStr "text")).
  - reflexivity.
  - reflexivity.
  - right. split; reflexivity.
Defined.


(** ** PredictSimilarEntitiesResource.on_get *)

Lemma similar_entities_run (dataset : Dataset) (l : list (Z * Q)) :
  forall tr : trace,
    map_M (PredictSimilarEntitiesResource.similar_entity dataset) l tr
    = (inr (map (shaped dataset) l), tr ++ map (fun p => GetEntity (fst p)) l).
Proof.
  induction l as [|[e_id dist] l IH]; intros tr; cbn [map_M map].
  - unfold ret. now rewrite app_nil_r.
  - unfold bind at 1. unfold PredictSimilarEntitiesResource.similar_entity at 1.
    unfold bind at 1, call at 1. cbn [ret]. unfold bind at 1. rewrite IH.
    unfold ret, shaped. cbn [fst snd]. now rewrite <- app_assoc.
Qed.

(** A by-reference query on a ready dataset, step by step: [limit + 1]
    neighbours are asked for, and the answer lists what the oracle returned,
    entry for entry. *)
Lemma on_get_by_reference_run (dataset_dao : DatasetDAO) (req : request) (dataset_id : Z)
    (entity : json) (dto : DatasetDTO) (err err' : string) (srv : Server)
    (limit search_k : option Z) (id : Z) (tr : trace) :
  get_dataset_by_id dataset_dao dataset_id = (Some dto, err) ->
  get_search_index dataset_dao dto = (Some srv, err') ->
  run (get_param_as_int req "limit") = inr limit ->
  run (get_param_as_int req "search_k") = inr search_k ->
  get_entity_id (build_dataset_object dataset_dao dto) entity = Some id ->
  let dataset := build_dataset_object dataset_dao dto in
  let n := or_default 10 limit + 1 in
  let k := or_default (-1) search_k in
  let answer := similarity_by_id srv id n k in
  PredictSimilarEntitiesResource.on_get dataset_dao req dataset_id entity false tr
  = (inr {| body := Value
                      (JDict [("dataset", to_dict dto);
                              ("similar_entities",
                               JDict [("entity", JDict [("value", get_entity dataset id);
                                                        ("type", JStr "uri")]);
                                      ("limit", JInt (Z.of_nat (length answer)));
                                      ("search_k", JInt k);
                                      ("response", JList (map (shaped dataset) answer))])]);
            content_type := "application/json";
            status := HTTP_200 |},
     tr ++ [GetDatasetById dataset_id; BuildDatasetObject; GetSearchIndex;
            GetEntityId entity; SimilarityById id n k]
        ++ map (fun p => GetEntity (fst p)) answer ++ [GetEntity id]).
Proof.
  intros Hdto Hsrv Hlimit Hk Hid dataset n k answer.
  unfold PredictSimilarEntitiesResource.on_get.
  unfold bind at 1, call at 1. rewrite Hdto.
  unfold bind at 1, call at 1.
  unfold bind at 1, call at 1. rewrite Hsrv.
  unfold bind at 1, lift at 1. rewrite Hlimit.
  unfold bind at 1, lift at 1. rewrite Hk.
  unfold bind at 1. unfold bind at 1, call at 1. rewrite Hid.
  unfold bind at 1, call at 1.
  unfold bind at 1. rewrite similar_entities_run.
  unfold bind at 1, call at 1. unfold ret.
  assert (or_default 10 limit = match limit with Some l => l | None => 10 end) as <-
    by now destruct limit.
  assert (or_default (-1) search_k = match search_k with Some l => l | None => -1 end) as <-
    by now destruct search_k.
  fold n k answer. rewrite length_map.
  f_equal. rewrite <- !app_assoc. reflexivity.
Qed.

(** C1 (as stated, refuted): on the specification's own example, with the
    oracle answering [(Q1,0.0); (Q2,0.4); (Q3,0.9)] to the query for Q1 with
    limit 2, it is not the case that the answer lists at most 2 entries and
    leaves Q1 out. *)
Lemma similar_by_reference_returns_self :
  ~ (forall resp tr,
       PredictSimilarEntitiesResource.on_get Scenario.d1_dao
         (Scenario.get_req [("limit", IntValue 2)]) 1 (JStr "Q1") false [] = (inr resp, tr) ->
       (length (similar_list resp) <= 2)%nat
       /\ ~ In (Scenario.item "Q1" (0 # 1)%Q) (similar_list resp)).
Proof.
  intros H.
  destruct (H _ _ eq_refl) as [Hlen _].
  vm_compute in Hlen. lia.
Qed.

(** What the code answers there: the three entries of the oracle, Q1 first. *)
Lemma similar_by_reference_example :
  exists resp tr,
    PredictSimilarEntitiesResource.on_get Scenario.d1_dao
      (Scenario.get_req [("limit", IntValue 2)]) 1 (JStr "Q1") false [] = (inr resp, tr)
    /\ similar_list resp
       = [Scenario.item "Q1" (0 # 1)%Q; Scenario.item "Q2" (4 # 10)%Q;
          Scenario.item "Q3" (9 # 10)%Q]
    /\ In (SimilarityById 1 3 (-1)) tr.
Proof.
  remember (PredictSimilarEntitiesResource.on_get _ _ _ _ _ _) as r eqn:Hr.
  vm_compute in Hr. subst r.
  eexists _, _. split; [reflexivity|]. split; [reflexivity|].
  cbn. tauto.
Qed.

(** C1 (amended): for a by-reference query with a positive limit N on a ready
    dataset, [N + 1] neighbours are asked of the oracle and the answer lists
    what the oracle returned, entry for entry and in its order.  So it has at
    most [N + 1] entries when the oracle returns no more than it was asked
    for, and the queried entity is among them whenever the oracle returned
    it. *)
Theorem similar_by_reference_lists_oracle_answer (dataset_dao : DatasetDAO)
    (req : request) (dataset_id : Z) (entity : json) (N : Z) (dto : DatasetDTO)
    (err err' : string) (srv : Server) (search_k : option Z) (id : Z) (tr : trace) :
  get_param (params req) "limit" = Some (IntValue N) ->
  0 < N ->
  run (get_param_as_int req "search_k") = inr search_k ->
  get_dataset_by_id dataset_dao dataset_id = (Some dto, err) ->
  get_search_index dataset_dao dto = (Some srv, err') ->
  get_entity_id (build_dataset_object dataset_dao dto) entity = Some id ->
  let dataset := build_dataset_object dataset_dao dto in
  let k := or_default (-1) search_k in
  let answer := similarity_by_id srv id (N + 1) k in
  exists resp tr',
    PredictSimilarEntitiesResource.on_get dataset_dao req dataset_id entity false tr
    = (inr resp, tr')
    /\ In (SimilarityById id (N + 1) k) tr'
    /\ similar_list resp = map (shaped dataset) answer
    /\ ((length answer <= Z.to_nat (N + 1))%nat ->
        (length (similar_list resp) <= Z.to_nat N + 1)%nat)
    /\ (forall dist, In (id, dist) answer ->
                     In (shaped dataset (id, dist)) (similar_list resp)).
Proof.
  intros Hlimit HN Hk Hdto Hsrv Hid dataset k answer.
  assert (run (get_param_as_int req "limit") = inr (Some N)) as Hl.
  { unfold get_param_as_int. now rewrite Hlimit. }
  eexists _, _. split.
  { apply (on_get_by_reference_run _ _ _ _ _ _ _ _ _ _ _ tr Hdto Hsrv Hl Hk Hid). }
  assert (similar_list
            {| body := Value
                 (JDict [("dataset", to_dict dto);
                         ("similar_entities",
                          JDict [("entity", JDict [("value", get_entity dataset id);
                                                   ("type", JStr "uri")]);
                                 ("limit", JInt (Z.of_nat (length answer)));
                                 ("search_k", JInt k);
                                 ("response", JList (map (shaped dataset) answer))])]);
               content_type := "application/json";
               status := HTTP_200 |}
          = map (shaped dataset) answer) as Hlist by reflexivity.
  cbn [or_default]. fold dataset k answer. rewrite Hlist.
  split.
  { rewrite !in_app_iff. right. left. cbn. tauto. }
  split; [reflexivity|]. split.
  - rewrite length_map. intros Hle. rewrite Z2Nat.inj_add in Hle by lia.
    exact Hle.
  - intros dist Hin. now apply (in_map (shaped dataset)) in Hin.
Qed.

Lemma similar_by_reference_lists_oracle_answer_witness :
  exists resp tr',
    PredictSimilarEntitiesResource.on_get Scenario.d1_dao
      (Scenario.get_req [("limit", IntValue 2)]) 1 (JStr "Q1") false [] = (inr resp, tr')
    /\ In (SimilarityById 1 (2 + 1) (-1)) tr'
    /\ similar_list resp = map (shaped Scenario.d1_dataset) Scenario.d1_neighbours
    /\ ((length Scenario.d1_neighbours <= Z.to_nat (2 + 1))%nat ->
        (length (similar_list resp) <= Z.to_nat 2 + 1)%nat)
    /\ (forall dist, In (1, dist) Scenario.d1_neighbours ->
                     In (shaped Scenario.d1_dataset (1, dist)) (similar_list resp)).
Proof.
  apply (similar_by_reference_lists_oracle_answer Scenario.d1_dao
           (Scenario.get_req [("limit", IntValue 2)]) 1 (JStr "Q1") 2 Scenario.d1_dto
           "" "" Scenario.d1_server None 1 []).
  - reflexivity.
  - lia.
  - reflexivity.
  - reflexivity.
  - reflexivity.
  - reflexivity.
Defined.

(** [on_get] looks at the request only through the values its two query
    parameters take once the defaults are filled in. *)
Lemma on_get_effective_params (dataset_dao : DatasetDAO) (req req' : request)
    (dataset_id : Z) (entity : json) (embedding : bool)
    (limit limit' search_k search_k' : option Z) (tr : trace) :
  run (get_param_as_int req "limit") = inr limit ->
  run (get_param_as_int req' "limit") = inr limit' ->
  run (get_param_as_int req "search_k") = inr search_k ->
  run (get_param_as_int req' "search_k") = inr search_k' ->
  or_default 10 limit = or_default 10 limit' ->
  or_default (-1) search_k = or_default (-1) search_k' ->
  PredictSimilarEntitiesResource.on_get dataset_dao req dataset_id entity embedding tr
  = PredictSimilarEntitiesResource.on_get dataset_dao req' dataset_id entity embedding tr.
Proof.
  intros Hl Hl' Hk Hk' Hlimit Hsearch.
  assert (forall o, match o with Some l => l | None => 10 end = or_default 10 o) as E1
    by now intros [|].
  assert (forall o, match o with Some l => l | None => -1 end = or_default (-1) o) as E2
    by now intros [|].
  unfold PredictSimilarEntitiesResource.on_get, bind, call, lift.
  destruct (get_dataset_by_id dataset_dao dataset_id) as [[dto|] err]; [|reflexivity].
  destruct (get_search_index dataset_dao dto) as [[srv|] err']; [|reflexivity].
  rewrite Hl, Hl', Hk, Hk', !E1, !E2, Hlimit, Hsearch. reflexivity.
Qed.

Lemma get_param_as_int_other (req : request) (name other : string) (v : Z) :
  String.eqb other name = false ->
  get_param_as_int (with_param name v req) other = get_param_as_int req other.
Proof.
  intros Hne. unfold get_param_as_int, with_param. cbn. now rewrite Hne.
Qed.

(** A similarity request that leaves out [limit] is answered exactly as the
    same request with [limit=10], and one that leaves out [search_k] exactly
    as the same request with [search_k=-1]: same result, same calls to the
    collaborators, on every path. *)
Lemma on_get_omitted_params (dataset_dao : DatasetDAO) (req : request) (dataset_id : Z)
    (entity : json) (embedding : bool) (tr : trace) :
  (get_param (params req) "limit" = None ->
   PredictSimilarEntitiesResource.on_get dataset_dao req dataset_id entity embedding tr
   = PredictSimilarEntitiesResource.on_get dataset_dao (with_param "limit" 10 req)
       dataset_id entity embedding tr)
  /\ (get_param (params req) "search_k" = None ->
      PredictSimilarEntitiesResource.on_get dataset_dao req dataset_id entity embedding tr
      = PredictSimilarEntitiesResource.on_get dataset_dao (with_param "search_k" (-1) req)
          dataset_id entity embedding tr).
Proof.
  split; intros Hnone;
    unfold PredictSimilarEntitiesResource.on_get, bind, call, lift;
    (destruct (get_dataset_by_id dataset_dao dataset_id) as [[dto|] err]; [|reflexivity]);
    (destruct (get_search_index dataset_dao dto) as [[srv|] err']; [|reflexivity]).
  - rewrite (get_param_as_int_other req "limit" "search_k" 10 eq_refl).
    assert (run (get_param_as_int req "limit") = inr None) as ->
      by (unfold get_param_as_int; now rewrite Hnone).
    assert (run (get_param_as_int (with_param "limit" 10 req) "limit") = inr (Some 10))
      as -> by reflexivity.
    reflexivity.
  - rewrite (get_param_as_int_other req "search_k" "limit" (-1) eq_refl).
    assert (run (get_param_as_int req "search_k") = inr None) as ->
      by (unfold get_param_as_int; now rewrite Hnone).
    assert (run (get_param_as_int (with_param "search_k" (-1) req) "search_k")
            = inr (Some (-1))) as -> by reflexivity.
    reflexivity.
Qed.

(** With both parameters left out the oracle is asked for 11 neighbours with
    search effort -1. *)
Lemma on_get_defaults_example :
  exists resp tr,
    PredictSimilarEntitiesResource.on_get Scenario.d1_dao (Scenario.get_req []) 1
      (JStr "Q1") false [] = (inr resp, tr)
    /\ In (SimilarityById 1 11 (-1)) tr.
Proof.
  remember (PredictSimilarEntitiesResource.on_get _ _ _ _ _ _) as r eqn:Hr.
  vm_compute in Hr. subst r.
  eexists _, _. split; [reflexivity|]. cbn. tauto.
Qed.

(** ** PredictSimilarEntitiesResource.on_post *)


(** What the code does there: [.lower()] raises, and nothing catches it. *)
Lemma on_post_type_not_str_raises :
  PredictSimilarEntitiesResource.on_post Scenario.d1_dao
    (Scenario.post_req (JDict [("entity", JDict [("type", JInt 5);
                                                 ("value", JStr "Q1")])])) 1 []
  = (inl AttributeError, []).
Proof. reflexivity. Qed.



(** ** DistanceTriples.on_post *)

(** The check of the [distance] value is the conjunction "not a list and
    length other than two", so a list passes whatever its length. *)
Lemma read_body_list (req : request) (d : list (string * json)) (l : list json)
    (tr : trace) :
  stream req = Some (JDict d) ->
  dict_get d "distance" = Some (JList l) ->
  DistanceTriples.read_body req tr
  = match l with
    | x :: y :: _ => (inr (x, y), tr)
    | _ => (inl IndexError, tr)
    end.
Proof.
  intros Hbody Hd.
  unfold DistanceTriples.read_body, try_except, json_loads, bind, lift, run.
  rewrite Hbody. cbn. rewrite Hd. cbn.
  destruct l as [|x [|y rest]]; reflexivity.
Qed.

(** C2 (the code at the failing input): a [distance] list of three or more
    references is not rejected; its first two elements are taken as the pair,
    and on the example dataset the request goes on to resolve them and is
    answered with a distance. *)
Theorem distance_list_of_three_accepted (x y z : json) (rest : list json) (tr : trace) :
  DistanceTriples.read_body
    (Scenario.post_req (JDict [("distance", JList (x :: y :: z :: rest))])) tr
  = (inr (x, y), tr)
  /\ DistanceTriples.on_post Scenario.d1_dao
       (Scenario.post_req (JDict [("distance", JList [JStr "Q1"; JStr "Q2"; JStr "Q3"])]))
       1 []
     = (inr {| body := Value (JDict [("distance", JFloat (4 # 10)%Q)]);
               content_type := "application/json";
               status := HTTP_200 |},
        [GetDatasetById 1; BuildDatasetObject; GetSearchIndex;
         GetEntityId (JStr "Q1"); GetEntityId (JStr "Q2");
         DistanceBetweenEntities 1 2]).
Proof.
  split.
  - now rewrite (read_body_list _ [("distance", JList (x :: y :: z :: rest))]
                   (x :: y :: z :: rest)).
  - reflexivity.
Qed.

(** A [distance] list of fewer than two references fails with the
    [IndexError] of the subscript, which the [except] clause does not list:
    it is no HTTP error at all. *)
Lemma distance_list_of_one_raises (x : json) (tr : trace) :
  DistanceTriples.on_post Scenario.d1_dao
    (Scenario.post_req (JDict [("distance", JList [x])])) 1 tr
  = (inl IndexError, tr)
  /\ http_status_of IndexError = None.
Proof.
  split; [|reflexivity].
  unfold DistanceTriples.on_post, bind.
  now rewrite (read_body_list _ [("distance", JList [x])] [x]).
Qed.

(** A str of two characters is taken for the pair of its characters. *)
Lemma distance_str_of_two_accepted (tr : trace) :
  DistanceTriples.read_body (Scenario.post_req (JDict [("distance", JStr "ab")])) tr
  = (inr (JStr "a", JStr "b"), tr).
Proof. reflexivity. Qed.

(** C5: when the body gave two references, the dataset is ready and one or
    both references are unknown to it, [on_post] raises [HTTPNotFound] (404)
    after both lookups and before any distance is computed; its description
    names both references, each next to the id found for it, and that id is
    [None] exactly for an unresolved reference. *)
Theorem distance_unresolved_reference (dataset_dao : DatasetDAO) (req : request)
    (dataset_id : Z) (entity_x entity_y : json) (dto : DatasetDTO)
    (err err' : string) (srv : Server) (tr : trace) :
  DistanceTriples.read_body req tr = (inr (entity_x, entity_y), tr) ->
  get_dataset_by_id dataset_dao dataset_id = (Some dto, err) ->
  get_search_index dataset_dao dto = (Some srv, err') ->
  get_entity_id (build_dataset_object dataset_dao dto) entity_x = None
  \/ get_entity_id (build_dataset_object dataset_dao dto) entity_y = None ->
  let id_x := get_entity_id (build_dataset_object dataset_dao dto) entity_x in
  let id_y := get_entity_id (build_dataset_object dataset_dao dto) entity_y in
  let description :=
    [Lit "The "; Arg (of_id id_x); Lit " id from entity "; Arg entity_x;
     Lit " or the "; Arg (of_id id_y); Lit " id from "; Arg entity_y;
     Lit " entity can't be found on the dataset"] in
  DistanceTriples.on_post dataset_dao req dataset_id tr
  = (inl (HTTPNotFound description),
     tr ++ [GetDatasetById dataset_id; BuildDatasetObject; GetSearchIndex;
            GetEntityId entity_x; GetEntityId entity_y])
  /\ http_status_of (HTTPNotFound description) = Some 404
  /\ (of_id id_x = JNull <-> id_x = None)
  /\ (of_id id_y = JNull <-> id_y = None).
Proof.
  intros Hbody Hdto Hsrv Hnone id_x id_y description.
  split; [|split; [reflexivity|]].
  - unfold DistanceTriples.on_post, bind at 1. rewrite Hbody.
    unfold bind, call. rewrite Hdto, Hsrv.
    fold id_x id_y. rewrite <- !app_assoc. cbn [app].
    subst description. unfold DistanceTriples.not_found_description.
    destruct Hnone as [Hx|Hy].
    + fold id_x in Hx. rewrite Hx. reflexivity.
    + fold id_y in Hy. rewrite Hy. destruct id_x; reflexivity.
  - split; (split; [|intros ->; reflexivity]).
    + destruct id_x; [discriminate|reflexivity].
    + destruct id_y; [discriminate|reflexivity].
Qed.

Lemma distance_unresolved_reference_witness :
  DistanceTriples.on_post Scenario.d1_dao
    (Scenario.post_req (JDict [("distance", JList [JStr "Q1"; JStr "Q9"])])) 1 []
  = (inl (HTTPNotFound
            [Lit "The "; Arg (JInt 1); Lit " id from entity "; Arg (JStr "Q1");
             Lit " or the "; Arg JNull; Lit " id from "; Arg (JStr "Q9");
             Lit " entity can't be found on the dataset"]),
     [GetDatasetById 1; BuildDatasetObject; GetSearchIndex;
      GetEntityId (JStr "Q1"); GetEntityId (JStr "Q9")]).
Proof.
  apply (proj1 (distance_unresolved_reference Scenario.d1_dao
                  (Scenario.post_req (JDict [("distance", JList [JStr "Q1"; JStr "Q9"])]))
                  1 (JStr "Q1") (JStr "Q9") Scenario.d1_dto "" "" Scenario.d1_server []
                  eq_refl eq_refl eq_refl (or_intror eq_refl))).
Defined.

(** * Further properties of the modelled code *)

Lemma generate_index_recreates_aux (self : EntityDAO.dao) (indexName : string)
    (es : EntityDAO.cluster) :
  EntityDAO.generate_index self indexName es
  = (inr tt,
     <[indexName := {| EntityDAO.ix_body := EntityDAO.index_body self;
                       EntityDAO.ix_docs := ∅ |}]> es)
  /\ (<[indexName := {| EntityDAO.ix_body := EntityDAO.index_body self;
                        EntityDAO.ix_docs := ∅ |}]> es) !! indexName
     = Some {| EntityDAO.ix_body := EntityDAO.index_body self; EntityDAO.ix_docs := ∅ |}.
Proof.
  split; [|apply lookup_insert_eq].
  unfold EntityDAO.generate_index, bind at 1.
  rewrite indices_delete_swallowed.
  unfold EntityDAO.indices_create. rewrite lookup_delete_eq.
  now rewrite insert_delete_eq.
Qed.

(** ** EntityDAO: constructor and upsert *)

(** X1: the constructor never touches an index that exists: on a cluster that
    already has the index [entities], it changes nothing (no document is
    lost); in every case the index exists when it returns. *)
Theorem init_keeps_existing_index (dataset_type : string) (dataset_id : Z)
    (es : EntityDAO.cluster) :
  exists es',
    EntityDAO.init dataset_type dataset_id es
    = (inr {| EntityDAO.dao_index := "entities"; EntityDAO.dao_type := dataset_type;
              EntityDAO.dao_dataset_id := dataset_id |}, es')
    /\ is_Some (es' !! "entities")
    /\ (is_Some (es !! "entities") -> es' = es)
    /\ (forall name, name <> "entities" -> es' !! name = es !! name).
Proof.
  unfold EntityDAO.init, bind, EntityDAO.indices_exists. cbn [EntityDAO.dao_index].
  destruct (es !! "entities") as [ix|] eqn:Hix.
  - rewrite bool_decide_eq_true_2 by eauto. cbn.
    exists es. rewrite Hix. repeat split; eauto.
  - rewrite bool_decide_eq_false_2 by (intros [? ?]; discriminate). cbn [negb].
    match goal with
    | |- context [EntityDAO.generate_index ?self ?name ?es] =>
        destruct (generate_index_recreates_aux self name es) as [Hgen Hfresh]
    end.
    rewrite Hgen. cbn. eexists. split; [reflexivity|].
    split; [rewrite lookup_insert_eq; eauto|].
    split; [intros [? ?]; discriminate|].
    intros name Hne. now rewrite lookup_insert_ne.
Qed.

Lemma stored_doc_put (index : string) (ix : EntityDAO.es_index) (key key' : string * string)
    (src : EntityDAO.source) (es : EntityDAO.cluster) :
  stored_doc (EntityDAO.put_doc index ix key src es) index key'
  = if decide (key = key') then Some src else EntityDAO.ix_docs ix !! key'.
Proof.
  unfold stored_doc. rewrite put_doc_lookup. cbn. apply lookup_insert.
Qed.

(** X2: an upsert changes nothing but the document of its entity: the other
    indices, the body of the index and every other document of the index are
    as before. *)
Theorem insert_entity_frame (self : EntityDAO.dao) (e : EntityDAO.entity_dict)
    (es : EntityDAO.cluster) (ix : EntityDAO.es_index) :
  es !! EntityDAO.dao_index self = Some ix ->
  exists es',
    EntityDAO.insert_entity self e es = (inr tt, es')
    /\ (forall name, name <> EntityDAO.dao_index self -> es' !! name = es !! name)
    /\ EntityDAO.ix_body <$> es' !! EntityDAO.dao_index self = Some (EntityDAO.ix_body ix)
    /\ (forall key, key <> (EntityDAO.dao_type self, EntityDAO.entity e) ->
                    stored_doc es' (EntityDAO.dao_index self) key
                    = stored_doc es (EntityDAO.dao_index self) key).
Proof.
  intros Hix. destruct (insert_entity_run self e es ix Hix) as (src & Hrun & _).
  eexists. split; [exact Hrun|]. split; [|split].
  - intros name Hne. unfold EntityDAO.put_doc. now rewrite lookup_insert_ne.
  - now rewrite put_doc_lookup.
  - intros key Hne. rewrite stored_doc_put. rewrite decide_False by congruence.
    unfold stored_doc. now rewrite Hix.
Qed.

Lemma insert_entity_frame_witness :
  exists es',
    EntityDAO.insert_entity Scenario.dao_1 Scenario.paris Scenario.fresh_cluster
    = (inr tt, es')
    /\ (forall name, name <> "entities" -> es' !! name = Scenario.fresh_cluster !! name)
    /\ EntityDAO.ix_body <$> es' !! "entities"
       = Some (EntityDAO.ix_body Scenario.fresh_index)
    /\ (forall key, key <> ("wikidata", "Q1") ->
                    stored_doc es' "entities" key
                    = stored_doc Scenario.fresh_cluster "entities" key).
Proof.
  exact (insert_entity_frame Scenario.dao_1 Scenario.paris Scenario.fresh_cluster
           Scenario.fresh_index fresh_cluster_index).
Defined.

(** X3: an upsert never removes a dataset from a document: the scopes stored
    before are all still there afterwards, the DAO's own scope is there, and
    the array grew by at most one element. *)
Theorem insert_entity_datasets_grow (self : EntityDAO.dao) (e : EntityDAO.entity_dict)
    (es : EntityDAO.cluster) (ix : EntityDAO.es_index) :
  es !! EntityDAO.dao_index self = Some ix ->
  let key := (EntityDAO.dao_type self, EntityDAO.entity e) in
  let old := default [] (stored_datasets ix key) in
  exists es' src ds,
    EntityDAO.insert_entity self e es = (inr tt, es')
    /\ stored_doc es' (EntityDAO.dao_index self) key = Some src
    /\ EntityDAO.src_datasets src = Some ds
    /\ In (EntityDAO.dao_dataset_id self) ds
    /\ (forall d, In d old -> In d ds)
    /\ (length old <= length ds <= length old + 1)%nat.
Proof.
  intros Hix key old.
  destruct (insert_entity_run self e es ix Hix) as (src & Hrun & Hds).
  eexists _, src, _. split; [exact Hrun|]. split.
  { rewrite stored_doc_put. now rewrite decide_True. }
  split; [exact Hds|]. fold key. split; [|split].
  - apply add_dataset_In. now left.
  - intros d Hd. apply add_dataset_In. now right.
  - subst old. unfold add_dataset.
    destruct (stored_datasets ix key) as [ds|]; cbn [default from_option id].
    + destruct (existsb (Z.eqb (EntityDAO.dao_dataset_id self)) ds).
      * lia.
      * rewrite length_app. cbn. lia.
    + cbn. lia.
Qed.

Lemma insert_entity_datasets_grow_witness :
  exists es' src ds,
    EntityDAO.insert_entity Scenario.dao_2 Scenario.paris Scenario.fresh_cluster
    = (inr tt, es')
    /\ stored_doc es' "entities" ("wikidata", "Q1") = Some src
    /\ EntityDAO.src_datasets src = Some ds
    /\ In 2 ds
    /\ (forall d, In d (default [] (stored_datasets Scenario.fresh_index
                                      ("wikidata", "Q1"))) -> In d ds)
    /\ (length (default [] (stored_datasets Scenario.fresh_index ("wikidata", "Q1")))
        <= length ds
        <= length (default [] (stored_datasets Scenario.fresh_index ("wikidata", "Q1"))) + 1)%nat.
Proof.
  exact (insert_entity_datasets_grow Scenario.dao_2 Scenario.paris Scenario.fresh_cluster
           Scenario.fresh_index fresh_cluster_index).
Defined.

(** X4: the first upsert of an entity stores exactly what was handed in: its
    reference, label, description and alternative labels, as suggestion terms
    every label followed by every alternative label, and as [datasets] the
    DAO's dataset alone. *)
Theorem insert_entity_first (self : EntityDAO.dao) (e : EntityDAO.entity_dict)
    (es : EntityDAO.cluster) (ix : EntityDAO.es_index) :
  es !! EntityDAO.dao_index self = Some ix ->
  EntityDAO.ix_docs ix !! (EntityDAO.dao_type self, EntityDAO.entity e) = None ->
  exists es',
    EntityDAO.insert_entity self e es = (inr tt, es')
    /\ stored_doc es' (EntityDAO.dao_index self) (EntityDAO.dao_type self, EntityDAO.entity e)
       = Some {| EntityDAO.src_entity := EntityDAO.entity e;
                 EntityDAO.src_description := EntityDAO.description e;
                 EntityDAO.src_label := EntityDAO.label e;
                 EntityDAO.src_alt_label := EntityDAO.alt_label e;
                 EntityDAO.src_label_suggest :=
                   map snd (EntityDAO.label e) ++ concat (map snd (EntityDAO.alt_label e));
                 EntityDAO.src_datasets := Some [EntityDAO.dao_dataset_id self] |}.
Proof.
  intros Hix Hnone. unfold EntityDAO.insert_entity, bind.
  unfold EntityDAO.update_doc_as_upsert at 1. rewrite Hix, Hnone.
  unfold EntityDAO.update_script. rewrite put_doc_lookup. cbn [EntityDAO.ix_docs].
  rewrite lookup_insert_eq. cbn [EntityDAO.ix_body].
  eexists. split; [reflexivity|].
  rewrite stored_doc_put. now rewrite decide_True.
Qed.

Lemma insert_entity_first_witness :
  exists es',
    EntityDAO.insert_entity Scenario.dao_1 Scenario.paris Scenario.fresh_cluster
    = (inr tt, es')
    /\ stored_doc es' "entities" ("wikidata", "Q1")
       = Some {| EntityDAO.src_entity := "Q1";
                 EntityDAO.src_description := [("en", "capital of France")];
                 EntityDAO.src_label := [("en", "Paris")];
                 EntityDAO.src_alt_label := [("en", ["City of Light"; "Paname"])];
                 EntityDAO.src_label_suggest := ["Paris"; "City of Light"; "Paname"];
                 EntityDAO.src_datasets := Some [1] |}.
Proof.
  exact (insert_entity_first Scenario.dao_1 Scenario.paris Scenario.fresh_cluster
           Scenario.fresh_index fresh_cluster_index eq_refl).
Defined.

(** ** EntityDAO.suggest_entity *)




(** X6: an exception that is not a [KeyError], raised while the options are
    read or while a candidate is processed, reaches the caller: the entries
    appended before it are not returned. *)
Theorem suggest_entity_propagates (to_dict : EntityDAO.EntityDTO -> json)
    (self : EntityDAO.dao) (resp : json) (e : exn) :
  (forall k, e <> KeyError k) ->
  run (EntityDAO.options resp) = inl e
  \/ (exists before opt after entities,
        run (EntityDAO.options resp) = inr (before ++ opt :: after)
        /\ for_each before
             (EntityDAO.suggest_option to_dict (EntityDAO.dao_dataset_id self)) []
           = (inr tt, entities)
        /\ (run (EntityDAO.in_dataset (EntityDAO.dao_dataset_id self) opt) = inl e
            \/ (run (EntityDAO.in_dataset (EntityDAO.dao_dataset_id self) opt) = inr true
                /\ run (EntityDAO.make_item to_dict opt) = inl e))) ->
  EntityDAO.suggest_entity to_dict self resp = inl e.
Proof.
  intros Hne [Hopts|(before & opt & after & entities & Hopts & Hbefore & Hraise)];
    rewrite suggest_entity_run, Hopts.
  - destruct e; try reflexivity. now destruct (Hne k).
  - rewrite for_each_app. unfold bind at 1. rewrite Hbefore. cbn [for_each].
    unfold bind at 1. rewrite suggest_option_run.
    destruct Hraise as [->|[-> ->]]; (destruct e; try reflexivity; now destruct (Hne k)).
Qed.

(** An answer whose [entities] list is empty: the subscript [0] raises. *)
Lemma suggest_entity_propagates_witness :
  EntityDAO.suggest_entity Scenario.dto_dict Scenario.dao_1
    (JDict [("entities", JList [])])
  = inl IndexError.
Proof.
  apply suggest_entity_propagates.
  - intros k. discriminate.
  - left. reflexivity.
Defined.

(** ** PredictSimilarEntitiesResource.on_get: every path *)

(** A by-embedding query on a ready dataset, step by step. *)
Lemma on_get_by_embedding_run (dataset_dao : DatasetDAO) (req : request) (dataset_id : Z)
    (entity : json) (dto : DatasetDTO) (err err' : string) (srv : Server)
    (limit search_k : option Z) (tr : trace) :
  get_dataset_by_id dataset_dao dataset_id = (Some dto, err) ->
  get_search_index dataset_dao dto = (Some srv, err') ->
  run (get_param_as_int req "limit") = inr limit ->
  run (get_param_as_int req "search_k") = inr search_k ->
  let dataset := build_dataset_object dataset_dao dto in
  let n := or_default 10 limit + 1 in
  let k := or_default (-1) search_k in
  let answer := similarity_by_embedding srv entity n k in
  PredictSimilarEntitiesResource.on_get dataset_dao req dataset_id entity true tr
  = (inr {| body := Value
                      (JDict [("dataset", to_dict dto);
                              ("similar_entities",
                               JDict [("entity", JDict [("value", entity);
                                                        ("type", JStr "embedding")]);
                                      ("limit", JInt (Z.of_nat (length answer)));
                                      ("search_k", JInt k);
                                      ("response", JList (map (shaped dataset) answer))])]);
            content_type := "application/json";
            status := HTTP_200 |},
     tr ++ [GetDatasetById dataset_id; BuildDatasetObject; GetSearchIndex;
            SimilarityByEmbedding entity n k]
        ++ map (fun p => GetEntity (fst p)) answer).
Proof.
  intros Hdto Hsrv Hlimit Hk dataset n k answer.
  unfold PredictSimilarEntitiesResource.on_get, bind, call, lift.
  rewrite Hdto, Hsrv, Hlimit, Hk, similar_entities_run.
  assert (or_default 10 limit = match limit with Some l => l | None => 10 end) as <-
    by now destruct limit.
  assert (or_default (-1) search_k = match search_k with Some l => l | None => -1 end) as <-
    by now destruct search_k.
  fold dataset n k answer. unfold ret. rewrite length_map.
  f_equal. rewrite <- !app_assoc. reflexivity.
Qed.

(** X7: a by-embedding query on a ready dataset never looks the entity up and
    cannot fail for an unknown entity: the vector goes to the oracle as it
    is, with [limit + 1] as the count, and the answer echoes the vector with
    the type [embedding] and lists what the oracle returned, in its order. *)
Theorem on_get_by_embedding (dataset_dao : DatasetDAO) (req : request) (dataset_id : Z)
    (entity : json) (dto : DatasetDTO) (err err' : string) (srv : Server)
    (limit search_k : option Z) (tr : trace) :
  get_dataset_by_id dataset_dao dataset_id = (Some dto, err) ->
  get_search_index dataset_dao dto = (Some srv, err') ->
  run (get_param_as_int req "limit") = inr limit ->
  run (get_param_as_int req "search_k") = inr search_k ->
  let dataset := build_dataset_object dataset_dao dto in
  let answer := similarity_by_embedding srv entity (or_default 10 limit + 1)
                  (or_default (-1) search_k) in
  exists resp tr',
    PredictSimilarEntitiesResource.on_get dataset_dao req dataset_id entity true tr
    = (inr resp, tr ++ tr')
    /\ similar_list resp = map (shaped dataset) answer
    /\ similar_field resp "entity"
       = Some (JDict [("value", entity); ("type", JStr "embedding")])
    /\ In (SimilarityByEmbedding entity (or_default 10 limit + 1)
             (or_default (-1) search_k)) tr'
    /\ (forall ev, In ev tr' -> forall e, ev <> GetEntityId e).
Proof.
  intros Hdto Hsrv Hlimit Hk dataset answer.
  eexists _, _. split.
  { rewrite (on_get_by_embedding_run _ _ _ _ _ _ _ _ _ _ tr Hdto Hsrv Hlimit Hk).
    reflexivity. }
  split; [reflexivity|]. split; [reflexivity|]. split.
  - rewrite in_app_iff. left. cbn. tauto.
  - intros ev Hin e ->. rewrite in_app_iff in Hin. destruct Hin as [Hin|Hin].
    + cbn in Hin. intuition discriminate.
    + apply in_map_iff in Hin as (p & Hp & _). discriminate.
Qed.

Lemma on_get_by_embedding_witness :
  exists resp tr',
    PredictSimilarEntitiesResource.on_get Scenario.d1_dao
      (Scenario.get_req [("limit", IntValue 1)]) 1 (JList [JFloat (1 # 2)%Q]) true []
    = (inr resp, [] ++ tr')
    /\ similar_list resp
       = map (shaped Scenario.d1_dataset)
           (similarity_by_embedding Scenario.d1_server (JList [JFloat (1 # 2)%Q])
              (or_default 10 (Some 1) + 1) (or_default (-1) None))
    /\ similar_field resp "entity"
       = Some (JDict [("value", JList [JFloat (1 # 2)%Q]); ("type", JStr "embedding")])
    /\ In (SimilarityByEmbedding (JList [JFloat (1 # 2)%Q]) (or_default 10 (Some 1) + 1)
             (or_default (-1) None)) tr'
    /\ (forall ev, In ev tr' -> forall e, ev <> GetEntityId e).
Proof.
  exact (on_get_by_embedding Scenario.d1_dao (Scenario.get_req [("limit", IntValue 1)]) 1
           (JList [JFloat (1 # 2)%Q]) Scenario.d1_dto "" "" Scenario.d1_server
           (Some 1) None [] eq_refl eq_refl eq_refl eq_refl).
Defined.

Lemma get_param_as_int_error (req : request) (name : string) (e : exn) :
  run (get_param_as_int req name) = inl e ->
  e = HTTPInvalidParam "The value must be an integer." name.
Proof.
  unfold get_param_as_int.
  destruct (get_param (params req) name) as [[z|]|]; cbn; congruence.
Qed.

(** The paths of [on_get]: the two lookups, the two parameters, the mode and,
    by reference, the resolution. *)
Ltac on_get_paths dataset_dao req dataset_id entity embedding :=
  unfold PredictSimilarEntitiesResource.on_get, bind, call, lift;
  destruct (get_dataset_by_id dataset_dao dataset_id) as [[dto|] err] eqn:Hdto;
  [ destruct (get_search_index dataset_dao dto) as [[srv|] err'] eqn:Hsrv;
    [ destruct (run (get_param_as_int req "limit")) as [el|limit] eqn:Hl;
      [ | destruct (run (get_param_as_int req "search_k")) as [ek|search_k] eqn:Hk;
          [ | destruct embedding;
              [ rewrite similar_entities_run
              | destruct (get_entity_id (build_dataset_object dataset_dao dto) entity)
                  as [id|] eqn:Hid;
                [ rewrite similar_entities_run | ] ] ] ]
    | ]
  | ].

(** X8: [on_get] fails in four ways only, each an HTTP error: 404 for an
    unknown dataset, 409 for a dataset without search index, 400 for a
    parameter that is not an integer, 404 for an unknown entity (by
    reference); and whenever it fails, the vector index was not queried. *)
Theorem on_get_failures (dataset_dao : DatasetDAO) (req : request) (dataset_id : Z)
    (entity : json) (embedding : bool) (tr tr' : trace) (e : exn) :
  PredictSimilarEntitiesResource.on_get dataset_dao req dataset_id entity embedding tr
  = (inl e, tr') ->
  ((exists err, e = HTTPNotFound [Lit err]
                /\ get_dataset_by_id dataset_dao dataset_id = (None, err))
   \/ (exists dto err err',
         e = HTTPConflict "Dataset not ready perform search operation" [Lit err']
         /\ get_dataset_by_id dataset_dao dataset_id = (Some dto, err)
         /\ get_search_index dataset_dao dto = (None, err'))
   \/ (exists name, e = HTTPInvalidParam "The value must be an integer." name
                    /\ (name = "limit" \/ name = "search_k"))
   \/ (embedding = false
       /\ e = HTTPNotFound [Lit "The "; Arg entity;
                            Lit " entity can't be found inside dataset."]))
  /\ (exists calls, tr' = tr ++ calls /\ forallb (fun ev => negb (is_query ev)) calls = true).
Proof.
  on_get_paths dataset_dao req dataset_id entity embedding;
    intros H; inversion H; subst; clear H;
    (split; [|eexists; split; [rewrite <- ?app_assoc; reflexivity|reflexivity]]).
  - apply get_param_as_int_error in Hl. subst.
    right. right. left. eexists. split; [reflexivity|now left].
  - apply get_param_as_int_error in Hk. subst.
    right. right. left. eexists. split; [reflexivity|now right].
  - right. right. right. split; reflexivity.
  - right. left. eexists _, _, _. split; [reflexivity|]. split; [reflexivity|assumption].
  - left. eexists. split; reflexivity.
Qed.

Lemma on_get_failures_witness :
  ((exists err, HTTPNotFound [Lit "dataset not found"] = HTTPNotFound [Lit err]
                /\ get_dataset_by_id Scenario.d1_dao 7 = (None, err))
   \/ (exists dto err err',
         HTTPNotFound [Lit "dataset not found"]
         = HTTPConflict "Dataset not ready perform search operation" [Lit err']
         /\ get_dataset_by_id Scenario.d1_dao 7 = (Some dto, err)
         /\ get_search_index Scenario.d1_dao dto = (None, err'))
   \/ (exists name, HTTPNotFound [Lit "dataset not found"]
                    = HTTPInvalidParam "The value must be an integer." name
                    /\ (name = "limit" \/ name = "search_k"))
   \/ (false = false
       /\ HTTPNotFound [Lit "dataset not found"]
          = HTTPNotFound [Lit "The "; Arg (JStr "Q1");
                          Lit " entity can't be found inside dataset."]))
  /\ (exists calls, [GetDatasetById 7] = [] ++ calls
                    /\ forallb (fun ev => negb (is_query ev)) calls = true).
Proof.
  exact (on_get_failures Scenario.d1_dao (Scenario.get_req []) 7 (JStr "Q1") false []
           [GetDatasetById 7] (HTTPNotFound [Lit "dataset not found"]) eq_refl).
Defined.

Lemma no_query_in_lookups (l : list (Z * Q)) :
  List.filter is_query (map (fun p => GetEntity (fst p)) l) = [].
Proof. induction l as [|p l IH]; [reflexivity|exact IH]. Qed.

(** X9: every answer of [on_get] has status 200 and JSON content; its [limit]
    field is the number of entries it lists (not the limit asked for), its
    [search_k] field the effective search effort, and the vector index was
    queried exactly once to build it. *)
Theorem on_get_answer_shape (dataset_dao : DatasetDAO) (req : request) (dataset_id : Z)
    (entity : json) (embedding : bool) (tr tr' : trace) (resp : response) :
  PredictSimilarEntitiesResource.on_get dataset_dao req dataset_id entity embedding tr
  = (inr resp, tr') ->
  status resp = HTTP_200
  /\ content_type resp = "application/json"
  /\ similar_field resp "limit" = Some (JInt (Z.of_nat (length (similar_list resp))))
  /\ (exists search_k, run (get_param_as_int req "search_k") = inr search_k
                       /\ similar_field resp "search_k"
                          = Some (JInt (or_default (-1) search_k)))
  /\ (exists calls, tr' = tr ++ calls
                    /\ length (List.filter is_query calls) = 1%nat).
Proof.
  on_get_paths dataset_dao req dataset_id entity embedding;
    intros H; inversion H; subst; clear H;
    (split; [reflexivity|]); (split; [reflexivity|]);
    (split; [cbn; now rewrite length_map|]);
    (split; [exists search_k; split; [reflexivity|now destruct search_k]|]);
    (eexists; split; [rewrite <- ?app_assoc; reflexivity|]);
    cbn [app List.filter is_query]; rewrite ?List.filter_app, no_query_in_lookups;
    reflexivity.
Qed.

(** Asked with [limit=0], the example answers one entry and says [limit: 1]. *)
Lemma on_get_answer_shape_witness :
  similar_field
    {| body := Value (JDict [("dataset", JDict [("id", JInt 1)]);
                             ("similar_entities",
                              JDict [("entity", JDict [("value", JDict [("entity", JStr "Q1")]);
                                                       ("type", JStr "uri")]);
                                     ("limit", JInt 1);
                                     ("search_k", JInt (-1));
                                     ("response", JList [Scenario.item "Q1" (0 # 1)%Q])])]);
       content_type := "application/json"; status := HTTP_200 |} "limit"
  = Some (JInt 1).
Proof.
  exact (proj1 (proj2 (proj2 (on_get_answer_shape Scenario.d1_dao
                  (Scenario.get_req [("limit", IntValue 0)]) 1 (JStr "Q1") false []
                  _ _ eq_refl)))).
Defined.

(** ** PredictSimilarEntitiesResource.on_post: every answer *)

Lemma on_get_status (dataset_dao : DatasetDAO) (req : request) (dataset_id : Z)
    (entity : json) (embedding : bool) (tr tr' : trace) (resp : response) :
  PredictSimilarEntitiesResource.on_get dataset_dao req dataset_id entity embedding tr
  = (inr resp, tr') ->
  status resp = HTTP_200.
Proof.
  on_get_paths dataset_dao req dataset_id entity embedding;
    intros H; inversion H; reflexivity.
Qed.

Ltac on_post_refused :=
  let H := fresh "H" in
  intros H; inversion H; subst;
  left; split; [reflexivity|]; split; [reflexivity|]; eexists; reflexivity.

(** X10: an answer of [on_post] is either the 400 error object, built without
    any call to the dataset store or the index, or a 200 answer; the latter
    only for a body whose [entity] object has a str [type] and a [value], and
    it is then the answer of [on_get] for that value: by reference when the
    type lowercases to [uri], by embedding when it lowercases to
    [embedding]. *)
Theorem on_post_answers (dataset_dao : DatasetDAO) (req : request) (dataset_id : Z)
    (tr tr' : trace) (resp : response) :
  PredictSimilarEntitiesResource.on_post dataset_dao req dataset_id tr = (inr resp, tr') ->
  (status resp = HTTP_400 /\ tr' = tr /\ exists msg, body resp = ErrorObject 400 msg)
  \/ (status resp = HTTP_200
      /\ exists d e t value,
           stream req = Some (JDict d)
           /\ dict_get d "entity" = Some (JDict e)
           /\ dict_get e "type" = Some (JStr t)
           /\ dict_get e "value" = Some value
           /\ ((String.eqb (lower_string t) "uri" = true
                /\ PredictSimilarEntitiesResource.on_get dataset_dao req dataset_id
                     value false tr = (inr resp, tr'))
               \/ (String.eqb (lower_string t) "uri" = false
                   /\ String.eqb (lower_string t) "embedding" = true
                   /\ PredictSimilarEntitiesResource.on_get dataset_dao req dataset_id
                        value true tr = (inr resp, tr')))).
Proof.
  unfold PredictSimilarEntitiesResource.on_post,
    PredictSimilarEntitiesResource.entity_field, json_loads, bind, lift, run.
  destruct (stream req) as [body0|] eqn:Hbody;
    cbn -[PredictSimilarEntitiesResource.on_get]; [|discriminate].
  destruct body0 as [| | | |s|l|d]; cbn -[PredictSimilarEntitiesResource.on_get];
    try discriminate.
  - destruct (is_substring "entity" s); cbn -[PredictSimilarEntitiesResource.on_get];
      [discriminate|on_post_refused].
  - destruct (existsb (is_str "entity") l); cbn -[PredictSimilarEntitiesResource.on_get];
      [discriminate|on_post_refused].
  - destruct (dict_get d "entity") as [ent|] eqn:Hentity;
      cbn -[PredictSimilarEntitiesResource.on_get]; [|on_post_refused].
    destruct ent as [| | | |s|l|e]; cbn -[PredictSimilarEntitiesResource.on_get];
      try discriminate.
    + destruct (is_substring "type" s); cbn -[PredictSimilarEntitiesResource.on_get];
        [discriminate|on_post_refused].
    + destruct (existsb (is_str "type") l); cbn -[PredictSimilarEntitiesResource.on_get];
        [discriminate|on_post_refused].
    + destruct (dict_get e "type") as [ty|] eqn:Htype;
        cbn -[PredictSimilarEntitiesResource.on_get]; [|on_post_refused].
      destruct ty as [| | | |t| |]; cbn -[PredictSimilarEntitiesResource.on_get];
        try discriminate.
      destruct (String.eqb (lower_string t) "uri") eqn:Huri.
      * destruct (dict_get e "value") as [value|] eqn:Hvalue;
          cbn -[PredictSimilarEntitiesResource.on_get]; [|discriminate].
        destruct (PredictSimilarEntitiesResource.on_get dataset_dao req dataset_id
                    value false tr) as [[ex|r] st] eqn:Hget; [discriminate|].
        intros H; inversion H; subst. right.
        split; [exact (on_get_status _ _ _ _ _ _ _ _ Hget)|].
        exists d, e, t, value. repeat split; try assumption. now left.
      * destruct (String.eqb (lower_string t) "embedding") eqn:Hemb;
          [|on_post_refused].
        destruct (dict_get e "value") as [value|] eqn:Hvalue;
          cbn -[PredictSimilarEntitiesResource.on_get]; [|discriminate].
        destruct (PredictSimilarEntitiesResource.on_get dataset_dao req dataset_id
                    value true tr) as [[ex|r] st] eqn:Hget; [discriminate|].
        intros H; inversion H; subst. right.
        split; [exact (on_get_status _ _ _ _ _ _ _ _ Hget)|].
        exists d, e, t, value. repeat split; try assumption. right. now repeat split.
Qed.

(** Asked by embedding with the type written [Embedding]: the answer is the
    one [on_get] gives by embedding for the vector of the body. *)
Lemma on_post_answers_witness :
  exists d e t value,
    stream (Scenario.post_req Scenario.embedding_body) = Some (JDict d)
    /\ dict_get d "entity" = Some (JDict e)
    /\ dict_get e "type" = Some (JStr t)
    /\ dict_get e "value" = Some value
    /\ ((String.eqb (lower_string t) "uri" = true
         /\ PredictSimilarEntitiesResource.on_get Scenario.d1_dao
              (Scenario.post_req Scenario.embedding_body) 1 value false []
            = (inr Scenario.embedding_answer, Scenario.embedding_trace))
        \/ (String.eqb (lower_string t) "uri" = false
            /\ String.eqb (lower_string t) "embedding" = true
            /\ PredictSimilarEntitiesResource.on_get Scenario.d1_dao
                 (Scenario.post_req Scenario.embedding_body) 1 value true []
               = (inr Scenario.embedding_answer, Scenario.embedding_trace))).
Proof.
  destruct (on_post_answers Scenario.d1_dao (Scenario.post_req Scenario.embedding_body) 1
              [] Scenario.embedding_trace Scenario.embedding_answer eq_refl)
    as [[Hstatus _]|[_ Hget]].
  - discriminate Hstatus.
  - exact Hget.
Defined.

(** X11: a JSON object without an [entity] member, or whose [entity] object
    has no [type] member, is answered with the 400 error object and the
    message asking for an entity object; nothing is looked up. *)
Theorem on_post_missing_entity (dataset_dao : DatasetDAO) (req : request) (dataset_id : Z)
    (d : list (string * json)) (tr : trace) :
  stream req = Some (JDict d) ->
  dict_get d "entity" = None
  \/ (exists e, dict_get d "entity" = Some (JDict e) /\ dict_get e "type" = None) ->
  PredictSimilarEntitiesResource.on_post dataset_dao req dataset_id tr
  = (inr {| body := ErrorObject 400
                      [Lit "Must contain a entity object in json. Please, take a look to the documentation."];
            content_type := "application/json";
            status := HTTP_400 |}, tr).
Proof.
  intros Hbody Hmissing.
  unfold PredictSimilarEntitiesResource.on_post, json_loads, bind, lift, run.
  rewrite Hbody. cbn -[PredictSimilarEntitiesResource.on_get].
  destruct Hmissing as [Hnone|(e & He & Htype)].
  - rewrite Hnone. reflexivity.
  - rewrite He. cbn -[PredictSimilarEntitiesResource.on_get]. rewrite Htype. reflexivity.
Qed.

Lemma on_post_missing_entity_witness :
  PredictSimilarEntitiesResource.on_post Scenario.d1_dao
    (Scenario.post_req (JDict [("entity", JDict [("value", JStr "Q1")])])) 1 []
  = (inr {| body := ErrorObject 400
                      [Lit "Must contain a entity object in json. Please, take a look to the documentation."];
            content_type := "application/json";
            status := HTTP_400 |}, []).
Proof.
  apply (on_post_missing_entity Scenario.d1_dao
           (Scenario.post_req (JDict [("entity", JDict [("value", JStr "Q1")])])) 1
           [("entity", JDict [("value", JStr "Q1")])] [] eq_refl).
  right. exists [("value", JStr "Q1")]. split; reflexivity.
Defined.

(** ** DistanceTriples.on_post: the body and every path *)

(** X12: reading the body calls no collaborator.  It yields a pair only for
    an object whose [distance] is a list of two or more elements (its first
    two) or a str of exactly two characters (the two); every other body is
    refused with a 400-class error, except a list of fewer than two elements,
    which fails with an [IndexError]. *)
Theorem read_body_outcomes (req : request) (tr : trace) :
  exists r,
    DistanceTriples.read_body req tr = (r, tr)
    /\ match r with
       | inr (x, y) =>
           exists d, stream req = Some (JDict d)
             /\ ((exists rest, dict_get d "distance" = Some (JList (x :: y :: rest)))
                 \/ (exists a b,
                       dict_get d "distance" = Some (JStr (String a (String b EmptyString)))
                       /\ x = JStr (String a EmptyString)
                       /\ y = JStr (String b EmptyString)))
       | inl e =>
           http_status_of e = Some 400
           \/ (e = IndexError
               /\ exists d l, stream req = Some (JDict d)
                              /\ dict_get d "distance" = Some (JList l)
                              /\ (length l < 2)%nat)
       end.
Proof.
  unfold DistanceTriples.read_body, try_except, json_loads, bind, lift, run.
  destruct (stream req) as [body0|]; cbn; [|eexists; split; [reflexivity|now left]].
  destruct body0 as [| | | |s|l|d]; cbn;
    try (eexists; split; [reflexivity|now left]).
  - destruct (is_substring "distance" s); cbn; eexists; (split; [reflexivity|now left]).
  - destruct (existsb (is_str "distance") l); cbn; eexists; (split; [reflexivity|now left]).
  - destruct (dict_get d "distance") as [v|] eqn:Hv; cbn;
      [|eexists; split; [reflexivity|now left]].
    destruct v as [| | | |s|l|d2]; cbn;
      try (eexists; split; [reflexivity|now left]).
    + destruct s as [|a [|b [|c s]]]; cbn;
        try (eexists; split; [reflexivity|now left]).
      * eexists. split; [reflexivity|]. exists d. split; [reflexivity|].
        right. exists a, b. split; [assumption|]. split; reflexivity.
      * match goal with
        | |- context [Z.eqb ?n 2] => destruct (Z.eqb_spec n 2) as [E|E]; [exfalso; lia|]
        end.
        cbn. eexists. split; [reflexivity|now left].
    + destruct l as [|x [|y rest]]; cbn.
      * eexists. split; [reflexivity|]. right. split; [reflexivity|].
        exists d, []. repeat split; [assumption|cbn; lia].
      * eexists. split; [reflexivity|]. right. split; [reflexivity|].
        exists d, [x]. repeat split; [assumption|cbn; lia].
      * eexists. split; [reflexivity|]. exists d. split; [reflexivity|].
        left. exists rest. assumption.
    + match goal with
      | |- context [Z.eqb ?n 2] => destruct (Z.eqb n 2)
      end; cbn; eexists; (split; [reflexivity|now left]).
Qed.

(** X13: when both references are known to a ready dataset, [on_post] asks
    the index once for the distance between their ids, in the order of the
    body, and answers 200 with the value the index gave, unchanged. *)
Theorem distance_of_known_references (dataset_dao : DatasetDAO) (req : request)
    (dataset_id : Z) (entity_x entity_y : json) (dto : DatasetDTO)
    (err err' : string) (srv : Server) (id_x id_y : Z) (tr : trace) :
  DistanceTriples.read_body req tr = (inr (entity_x, entity_y), tr) ->
  get_dataset_by_id dataset_dao dataset_id = (Some dto, err) ->
  get_search_index dataset_dao dto = (Some srv, err') ->
  get_entity_id (build_dataset_object dataset_dao dto) entity_x = Some id_x ->
  get_entity_id (build_dataset_object dataset_dao dto) entity_y = Some id_y ->
  DistanceTriples.on_post dataset_dao req dataset_id tr
  = (inr {| body := Value (JDict [("distance",
                                   JFloat (distance_between_entities srv id_x id_y))]);
            content_type := "application/json";
            status := HTTP_200 |},
     tr ++ [GetDatasetById dataset_id; BuildDatasetObject; GetSearchIndex;
            GetEntityId entity_x; GetEntityId entity_y;
            DistanceBetweenEntities id_x id_y]).
Proof.
  intros Hbody Hdto Hsrv Hx Hy.
  unfold DistanceTriples.on_post, bind at 1. rewrite Hbody.
  unfold bind, call. rewrite Hdto, Hsrv, Hx, Hy.
  unfold ret. now rewrite <- !app_assoc.
Qed.

Lemma distance_of_known_references_witness :
  DistanceTriples.on_post Scenario.d1_dao
    (Scenario.post_req (JDict [("distance", JList [JStr "Q3"; JStr "Q1"])])) 1 []
  = (inr {| body := Value (JDict [("distance", JFloat (4 # 10)%Q)]);
            content_type := "application/json";
            status := HTTP_200 |},
     [GetDatasetById 1; BuildDatasetObject; GetSearchIndex;
      GetEntityId (JStr "Q3"); GetEntityId (JStr "Q1"); DistanceBetweenEntities 3 1]).
Proof.
  exact (distance_of_known_references Scenario.d1_dao
           (Scenario.post_req (JDict [("distance", JList [JStr "Q3"; JStr "Q1"])])) 1
           (JStr "Q3") (JStr "Q1") Scenario.d1_dto "" "" Scenario.d1_server 3 1 []
           eq_refl eq_refl eq_refl eq_refl eq_refl).
Defined.

Lemma read_body_trace (req : request) (tr : trace) :
  snd (DistanceTriples.read_body req tr) = tr.
Proof.
  unfold DistanceTriples.read_body, try_except, bind, lift.
  repeat (match goal with
          | |- context [match run ?m with _ => _ end] => destruct (run m) as [?|?]
          | |- context [if ?b then _ else _] => destruct b
          | |- context [match ?x with KeyError _ => _ | _ => _ end] => destruct x
          end; cbn); reflexivity.
Qed.

(** X14: a failure of [on_post] is either the failure of reading the body,
    and then no collaborator was called at all, or a 404 (unknown dataset or
    reference) or 409 (no search index) raised before the index was asked for
    any distance. *)
Theorem distance_failures (dataset_dao : DatasetDAO) (req : request) (dataset_id : Z)
    (tr tr' : trace) (e : exn) :
  DistanceTriples.on_post dataset_dao req dataset_id tr = (inl e, tr') ->
  (DistanceTriples.read_body req tr = (inl e, tr) /\ tr' = tr)
  \/ (exists entity_x entity_y calls,
        DistanceTriples.read_body req tr = (inr (entity_x, entity_y), tr)
        /\ (http_status_of e = Some 404 \/ http_status_of e = Some 409)
        /\ tr' = tr ++ calls
        /\ forallb (fun ev => negb (is_query ev)) calls = true).
Proof.
  unfold DistanceTriples.on_post, bind at 1.
  pose proof (read_body_trace req tr) as Htr.
  destruct (DistanceTriples.read_body req tr) as [[e0|[entity_x entity_y]] tr0].
  - cbn in Htr. subst tr0. intros H. inversion H; subst. now left.
  - cbn in Htr. subst tr0. intros H. right. exists entity_x, entity_y.
    unfold bind, call in H.
    destruct (get_dataset_by_id dataset_dao dataset_id) as [[dto|] err].
    + destruct (get_search_index dataset_dao dto) as [[srv|] err'].
      * destruct (get_entity_id (build_dataset_object dataset_dao dto) entity_x);
          destruct (get_entity_id (build_dataset_object dataset_dao dto) entity_y);
          inversion H; subst;
          (eexists; split; [reflexivity|]; split; [now left|];
           split; [rewrite <- ?app_assoc; reflexivity|reflexivity]).
      * inversion H; subst.
        eexists; split; [reflexivity|]; split; [now right|];
           split; [rewrite <- ?app_assoc; reflexivity|reflexivity].
    + inversion H; subst.
      eexists; split; [reflexivity|]; split; [now left|];
           split; [rewrite <- ?app_assoc; reflexivity|reflexivity].
Qed.

Lemma distance_failures_witness :
  (DistanceTriples.read_body (Scenario.post_req (JDict [("distance", JInt 3)])) []
   = (inl (HTTPBadRequest "HTTP Body request not loaded correctly"
             [Lit "The body couldn't be correctly loaded from HTTP request. Please, read the documentation carefully and try again. Extra info: Couldn't decode the input stream (body)."]),
      [])
   /\ @nil event = [])
  \/ (exists entity_x entity_y calls,
        DistanceTriples.read_body (Scenario.post_req (JDict [("distance", JInt 3)])) []
        = (inr (entity_x, entity_y), [])
        /\ (http_status_of
              (HTTPBadRequest "HTTP Body request not loaded correctly"
                 [Lit "The body couldn't be correctly loaded from HTTP request. Please, read the documentation carefully and try again. Extra info: Couldn't decode the input stream (body)."])
            = Some 404
            \/ http_status_of
                 (HTTPBadRequest "HTTP Body request not loaded correctly"
                    [Lit "The body couldn't be correctly loaded from HTTP request. Please, read the documentation carefully and try again. Extra info: Couldn't decode the input stream (body)."])
               = Some 409)
        /\ [] = [] ++ calls
        /\ forallb (fun ev => negb (is_query ev)) calls = true).
Proof.
  exact (distance_failures Scenario.d1_dao
           (Scenario.post_req (JDict [("distance", JInt 3)])) 1 [] [] _ eq_refl).
Defined.

(** ** AlgorithmDAO *)

Lemma dict_get_obj_set (k k' : string) (v : json) (d : list (string * json)) :
  dict_get (EntityDAO.obj_set k v d) k'
  = if String.eqb k' k then Some v else dict_get d k'.
Proof.
  induction d as [|[k0 v0] d IH]; cbn.
  - reflexivity.
  - destruct (String.eqb_spec k k0) as [->|Hne]; cbn.
    + now destruct (String.eqb k' k0).
    + destruct (String.eqb_spec k' k0) as [->|Hne'].
      * destruct (String.eqb_spec k0 k); [congruence|reflexivity].
      * exact IH.
Qed.

Lemma dict_get_In (d : list (string * json)) (k : string) :
  In k (map fst d) -> exists v, dict_get d k = Some v.
Proof.
  induction d as [|[k0 v0] d IH]; cbn; [intros []|].
  intros [<-|Hin].
  - rewrite String.eqb_refl. eauto.
  - destruct (String.eqb k k0); eauto.
Qed.

Lemma dict_get_None (d : list (string * json)) (k : string) :
  dict_get d k = None -> ~ In k (map fst d).
Proof.
  intros Hnone Hin. destruct (dict_get_In d k Hin) as (v & Hv). congruence.
Qed.

(** Copying the columns [ks] of a row into a dict. *)
Lemma copy_keys (r : AlgorithmDAO.row) (ks : list string) :
  (forall k, In k ks -> In k (map fst r)) ->
  forall d : AlgorithmDAO.row,
    exists d',
      for_each ks (fun key => do v <- lift (getitem_str (JDict r) key);
                              AlgorithmDAO.setitem key v) d = (inr tt, d')
      /\ (forall k, In k ks -> dict_get d' k = dict_get r k)
      /\ (forall k, ~ In k ks -> dict_get d' k = dict_get d k).
Proof.
  induction ks as [|key ks IH]; intros Hks d; cbn [for_each].
  - exists d. split; [reflexivity|]. split; [intros k []|reflexivity].
  - destruct (dict_get_In r key (Hks key (or_introl eq_refl))) as (v & Hv).
    destruct (IH (fun k Hk => Hks k (or_intror Hk)) (EntityDAO.obj_set key v d))
      as (d' & Hrun & Hin & Hout).
    exists d'. split; [|split].
    + unfold bind at 1. unfold bind at 1, lift, run, getitem_str. rewrite Hv. cbn.
      unfold AlgorithmDAO.setitem at 1. exact Hrun.
    + intros k [<-|Hk]; [|now apply Hin].
      destruct (in_dec string_dec key ks) as [Hk|Hk]; [now apply Hin|].
      rewrite (Hout _ Hk), dict_get_obj_set, String.eqb_refl. now symmetry.
    + intros k Hk. rewrite Hout by (intros ?; apply Hk; now right).
      rewrite dict_get_obj_set.
      destruct (String.eqb_spec k key) as [->|]; [|reflexivity].
      exfalso. apply Hk. now left.
Qed.

(** X15: a lookup that finds a row answers [self.algorithm] itself, updated
    in place: it has the row's value under every column of the row, and
    keeps what it held under any other key. *)
Theorem get_algorithm_by_id_found (self : AlgorithmDAO.MainDAO) (algorithm_id : json)
    (res0 : AlgorithmDAO.row) (others : list AlgorithmDAO.row)
    (algorithm : AlgorithmDAO.row) :
  algorithm_id <> JNull ->
  AlgorithmDAO.execute_query self "SELECT * FROM algorithm WHERE id=?" [algorithm_id]
  = Some (res0 :: others) ->
  exists algorithm',
    AlgorithmDAO.get_algorithm_by_id self algorithm_id algorithm
    = (inr (Some algorithm', None), algorithm')
    /\ (forall key v, dict_get res0 key = Some v -> dict_get algorithm' key = Some v)
    /\ (forall key, dict_get res0 key = None ->
                    dict_get algorithm' key = dict_get algorithm key).
Proof.
  intros Hid Hres.
  destruct (copy_keys res0 (map fst res0) (fun k H => H) algorithm)
    as (algorithm' & Hrun & Hin & Hout).
  exists algorithm'. split; [|split].
  - unfold AlgorithmDAO.get_algorithm_by_id.
    destruct algorithm_id; try congruence; rewrite Hres;
      unfold bind, AlgorithmDAO.copy_row; now rewrite Hrun.
  - intros key v Hv. rewrite Hin; [assumption|].
    destruct (in_dec string_dec key (map fst res0)) as [H|H]; [assumption|].
    exfalso. clear - Hv H. induction res0 as [|[k0 v0] r IH]; cbn in *; [discriminate|].
    destruct (String.eqb_spec key k0); [apply H; left; congruence|]. apply IH; tauto.
  - intros key Hnone. apply Hout. now apply dict_get_None.
Qed.

Lemma get_algorithm_by_id_found_witness :
  exists algorithm',
    AlgorithmDAO.get_algorithm_by_id AlgorithmScenario.db (JInt 2)
      [("id", JInt 1); ("embedding_size", JInt 100); ("note", JStr "old")]
    = (inr (Some algorithm', None), algorithm')
    /\ (forall key v, dict_get AlgorithmScenario.transe_big key = Some v ->
                      dict_get algorithm' key = Some v)
    /\ (forall key, dict_get AlgorithmScenario.transe_big key = None ->
                    dict_get algorithm' key
                    = dict_get [("id", JInt 1); ("embedding_size", JInt 100);
                                ("note", JStr "old")] key).
Proof.
  apply (get_algorithm_by_id_found AlgorithmScenario.db (JInt 2)
           AlgorithmScenario.transe_big []).
  - discriminate.
  - reflexivity.
Defined.

Lemma dict_get_app_fresh (pre post : list (string * json)) (k : string) :
  ~ In k (map fst pre) -> dict_get (pre ++ post) k = dict_get post k.
Proof.
  induction pre as [|[k0 v0] pre IH]; cbn; [reflexivity|].
  intros Hk. destruct (String.eqb_spec k k0) as [->|]; [tauto|]. apply IH. tauto.
Qed.

Lemma obj_set_fresh (pre : list (string * json)) (k : string) (v : json) :
  ~ In k (map fst pre) -> EntityDAO.obj_set k v pre = pre ++ [(k, v)].
Proof.
  induction pre as [|[k0 v0] pre IH]; cbn; [reflexivity|].
  intros Hk. destruct (String.eqb_spec k k0) as [->|]; [tauto|].
  rewrite IH by tauto. reflexivity.
Qed.

Lemma copy_row_distinct (post : AlgorithmDAO.row) :
  forall pre : AlgorithmDAO.row,
    List.NoDup (map fst (pre ++ post)) ->
    for_each (map fst post)
      (fun key => do v <- lift (getitem_str (JDict (pre ++ post)) key);
                  AlgorithmDAO.setitem key v) pre
    = (inr tt, pre ++ post).
Proof.
  induction post as [|[k v] post IH]; intros pre Hnd; cbn [map for_each fst].
  - unfold ret. now rewrite app_nil_r.
  - assert (~ In k (map fst pre)) as Hfresh.
    { rewrite map_app in Hnd. cbn in Hnd. apply List.NoDup_remove_2 in Hnd.
      intros Hin. apply Hnd. apply in_or_app. now left. }
    unfold bind at 1. unfold bind at 1, lift, run, getitem_str.
    rewrite dict_get_app_fresh by assumption. cbn. rewrite String.eqb_refl. cbn.
    unfold AlgorithmDAO.setitem at 1. rewrite obj_set_fresh by assumption.
    replace (pre ++ (k, v) :: post) with ((pre ++ [(k, v)]) ++ post)
      by now rewrite <- app_assoc.
    apply IH. now rewrite <- app_assoc.
Qed.

Lemma all_rows_distinct (rows : list AlgorithmDAO.row) :
  Forall (fun r => List.NoDup (map fst r)) rows ->
  forall acc, AlgorithmDAO.all_rows rows acc = inr (acc ++ rows).
Proof.
  induction 1 as [|r rows Hr _ IH]; intros acc; cbn [AlgorithmDAO.all_rows].
  - now rewrite app_nil_r.
  - unfold AlgorithmDAO.algorithm_of_row, AlgorithmDAO.copy_row.
    pose proof (copy_row_distinct r [] Hr) as Hcopy. cbn [app] in Hcopy.
    rewrite Hcopy, IH, <- app_assoc. reflexivity.
Qed.

(** X16: when the query answers rows whose columns are distinct,
    [get_all_algorithms] answers one dict per row, equal to it column for
    column and in the order of the rows, with no error. *)
Theorem get_all_algorithms_rows (self : AlgorithmDAO.MainDAO)
    (rows : list AlgorithmDAO.row) :
  AlgorithmDAO.execute_query self "SELECT * FROM algorithm" [] = Some rows ->
  Forall (fun r => List.NoDup (map fst r)) rows ->
  AlgorithmDAO.get_all_algorithms self = inr (rows, None).
Proof.
  intros Hres Hnd. unfold AlgorithmDAO.get_all_algorithms.
  rewrite Hres, (all_rows_distinct rows Hnd []). reflexivity.
Qed.

Lemma get_all_algorithms_rows_witness :
  AlgorithmDAO.get_all_algorithms AlgorithmScenario.db
  = inr ([AlgorithmScenario.transe; AlgorithmScenario.transe_big], None).
Proof.
  apply get_all_algorithms_rows; [reflexivity|].
  repeat constructor; cbn; intuition discriminate.
Defined.

(** X17: when the query answers [None], looking one algorithm up answers the
    404 pair and leaves [self.algorithm] as it was, while listing all
    algorithms raises [TypeError]: only the first of the two checks the
    result before using it. *)
Theorem algorithm_queries_on_None (self : AlgorithmDAO.MainDAO) (algorithm_id : json)
    (algorithm : AlgorithmDAO.row) :
  algorithm_id <> JNull ->
  (forall query args, AlgorithmDAO.execute_query self query args = None) ->
  AlgorithmDAO.get_algorithm_by_id self algorithm_id algorithm
  = (inr (None, Some (404, [Lit "Algorithm "; Arg algorithm_id; Lit " not found"])),
     algorithm)
  /\ AlgorithmDAO.get_all_algorithms self = inl TypeError.
Proof.
  intros Hid Hnone. split.
  - unfold AlgorithmDAO.get_algorithm_by_id.
    destruct algorithm_id; try congruence; now rewrite Hnone.
  - unfold AlgorithmDAO.get_all_algorithms. now rewrite Hnone.
Qed.

Lemma algorithm_queries_on_None_witness :
  AlgorithmDAO.get_algorithm_by_id AlgorithmScenario.closed_db (JInt 1) []
  = (inr (None, Some (404, [Lit "Algorithm "; Arg (JInt 1); Lit " not found"])), [])
  /\ AlgorithmDAO.get_all_algorithms AlgorithmScenario.closed_db = inl TypeError.
Proof.
  apply algorithm_queries_on_None; [discriminate|reflexivity].
Defined.

Lemma drop_last_marks_raw (n : nat) : AlgorithmDAO.drop_last (marks_raw n) = marks n.
Proof.
  induction n as [|[|n] IH]; [reflexivity|reflexivity|].
  change (marks_raw (S (S n))) with (String "?" (String "," (marks_raw (S n)))).
  change (marks (S (S n))) with (String "?" (String "," (marks (S n)))).
  rewrite <- IH. reflexivity.
Qed.

Lemma append_empty (s : string) : String.append s EmptyString = s.
Proof.
  induction s as [|c s IH]; [reflexivity|].
  change (String c (String.append s EmptyString) = String c s). now f_equal.
Qed.

Lemma append_marks_raw (s : string) (n : nat) :
  String.append (String.append s "?,") (marks_raw n) = String.append s (marks_raw (S n)).
Proof.
  induction s as [|c s IH]; [reflexivity|].
  change (String c (String.append (String.append s "?,") (marks_raw n))
          = String c (String.append s (marks_raw (S n)))).
  now f_equal.
Qed.

(** The loop of [insert_algorithm] over the keys [ks] of the dict. *)
Lemma insert_loop (d : AlgorithmDAO.row) (ks : list string) :
  (forall k, In k ks -> In k (map fst d)) ->
  forall st : AlgorithmDAO.insert_locals,
    exists vs,
      for_each ks (AlgorithmDAO.insert_step d) st
      = (inr tt,
         {| AlgorithmDAO.values_tuple := AlgorithmDAO.values_tuple st ++ vs;
            AlgorithmDAO.values_protect :=
              String.append (AlgorithmDAO.values_protect st) (marks_raw (length vs));
            AlgorithmDAO.param_tuple :=
              AlgorithmDAO.param_tuple st
              ++ List.filter (fun k => negb (String.eqb k "id")) ks |})
      /\ List.Forall2 (fun k v => dict_get d k = Some v)
           (List.filter (fun k => negb (String.eqb k "id")) ks) vs.
Proof.
  induction ks as [|k ks IH]; intros Hks st; cbn [for_each List.filter].
  - exists []. split; [|constructor]. cbn [length marks_raw].
    unfold ret. rewrite !app_nil_r, append_empty. now destruct st.
  - unfold bind at 1. unfold AlgorithmDAO.insert_step at 1.
    destruct (String.eqb k "id") eqn:Hk; cbn [negb].
    + cbn [ret]. apply IH. intros k' Hk'. apply Hks. now right.
    + destruct (dict_get_In d k (Hks k (or_introl eq_refl))) as (v & Hv).
      unfold bind, lift, run, getitem_str. rewrite Hv. cbn [fst ret].
      match goal with
      | |- context [for_each ks _ ?st1] =>
          destruct (IH (fun k' Hk' => Hks k' (or_intror Hk')) st1) as (vs & Hrun & Hvs)
      end.
      exists (v :: vs). split; [|now constructor].
      rewrite Hrun. cbn [AlgorithmDAO.values_tuple AlgorithmDAO.values_protect
                           AlgorithmDAO.param_tuple length].
      rewrite <- !app_assoc, append_marks_raw. reflexivity.
Qed.

(** The locals of [insert_algorithm] after its loop and the slice. *)
Lemma insert_build_run (d : AlgorithmDAO.row) :
  exists vs,
    AlgorithmDAO.insert_build d
    = inr {| AlgorithmDAO.values_tuple := vs;
             AlgorithmDAO.values_protect := marks (length (columns d));
             AlgorithmDAO.param_tuple := columns d |}
    /\ List.Forall2 (fun k v => dict_get d k = Some v) (columns d) vs.
Proof.
  destruct (insert_loop d (map fst d) (fun k H => H)
              {| AlgorithmDAO.values_tuple := []; AlgorithmDAO.values_protect := "";
                 AlgorithmDAO.param_tuple := [] |}) as (vs & Hrun & Hvs).
  exists vs. split; [|exact Hvs].
  unfold AlgorithmDAO.insert_build. rewrite Hrun.
  cbn [AlgorithmDAO.param_tuple AlgorithmDAO.values_tuple AlgorithmDAO.values_protect app].
  change (String.append "" (marks_raw (length vs))) with (marks_raw (length vs)).
  rewrite drop_last_marks_raw. do 3 f_equal.
  symmetry. fold (columns d) in Hvs. clear Hrun. induction Hvs; cbn; congruence.
Qed.

(** X18: the loop of [insert_algorithm] never keeps the key [id]: the
    columns it collects are the other keys of the dict in their order, the
    values are the values of those keys in the same order, and the
    placeholders are one question mark per column, separated by commas. *)
Theorem insert_build_columns (d : AlgorithmDAO.row) :
  exists st,
    AlgorithmDAO.insert_build d = inr st
    /\ AlgorithmDAO.param_tuple st = columns d
    /\ ~ In "id" (AlgorithmDAO.param_tuple st)
    /\ List.Forall2 (fun k v => dict_get d k = Some v)
         (AlgorithmDAO.param_tuple st) (AlgorithmDAO.values_tuple st)
    /\ AlgorithmDAO.values_protect st = marks (length (AlgorithmDAO.values_tuple st)).
Proof.
  destruct (insert_build_run d) as (vs & Hrun & Hvs).
  eexists. split; [exact Hrun|].
  cbn [AlgorithmDAO.param_tuple AlgorithmDAO.values_tuple AlgorithmDAO.values_protect].
  split; [reflexivity|]. split; [|split].
  - intros Hin. apply List.filter_In in Hin as [_ Hne]. discriminate.
  - exact Hvs.
  - f_equal. clear Hrun. induction Hvs; cbn; congruence.
Qed.

(** X19: [insert_algorithm] sends one statement, whose text is made of the
    keys of the dict other than [id] and of as many placeholders, together
    with the values of those keys; no value of the dict is part of the text.
    It answers the row id of the insertion, or, when the database raises
    [OperationalError], the pair of 400 and its message instead of
    raising. *)
Theorem insert_algorithm_statement (repr : string -> string)
    (self : AlgorithmDAO.MainDAO) (d : AlgorithmDAO.row) :
  exists values,
    List.Forall2 (fun k v => dict_get d k = Some v) (columns d) values
    /\ AlgorithmDAO.insert_algorithm repr self d
       = match AlgorithmDAO.execute_insertion self
                 (String.append "INSERT INTO algorithm "
                    (String.append (AlgorithmDAO.str_tuple repr (columns d))
                       (String.append " VALUES ("
                          (String.append (marks (length (columns d))) ")"))))
                 values with
         | inl err =>
             inr (None,
                  Some (400, String.append "One of the parameters is not valid. " err))
         | inr rowid => inr (Some rowid, None)
         end.
Proof.
  destruct (insert_build_run d) as (vs & Hrun & Hvs).
  exists vs. split; [exact Hvs|].
  unfold AlgorithmDAO.insert_algorithm. rewrite Hrun. reflexivity.
Qed.

(** ** EntityDAO: constructor followed by an upsert *)

Lemma init_run (dataset_type : string) (dataset_id : Z) (es : EntityDAO.cluster) :
  exists es' ix,
    EntityDAO.init dataset_type dataset_id es
    = (inr {| EntityDAO.dao_index := "entities"; EntityDAO.dao_type := dataset_type;
              EntityDAO.dao_dataset_id := dataset_id |}, es')
    /\ es' !! "entities" = Some ix
    /\ (forall old, es !! "entities" = Some old -> ix = old).
Proof.
  unfold EntityDAO.init, bind, EntityDAO.indices_exists. cbn [EntityDAO.dao_index].
  destruct (es !! "entities") as [old|] eqn:Hix.
  - rewrite bool_decide_eq_true_2 by eauto. cbn.
    exists es, old. split; [reflexivity|]. split; [assumption|]. congruence.
  - rewrite bool_decide_eq_false_2 by (intros [? ?]; discriminate). cbn [negb].
    match goal with
    | |- context [EntityDAO.generate_index ?self ?name ?es] =>
        destruct (generate_index_recreates_aux self name es) as [Hgen Hfresh]
    end.
    rewrite Hgen. cbn. eexists _, _. split; [reflexivity|].
    split; [exact Hfresh|]. discriminate.
Qed.

(** X20: a DAO can upsert as soon as it is constructed, whatever the cluster
    held: constructing it and upserting an entity succeeds, and the entity's
    document then lists the DAO's dataset, next to every dataset it listed
    before. *)
Theorem init_then_insert_entity (dataset_type : string) (dataset_id : Z)
    (e : EntityDAO.entity_dict) (es : EntityDAO.cluster) :
  exists es' src ds,
    (do self <- EntityDAO.init dataset_type dataset_id;
     EntityDAO.insert_entity self e) es = (inr tt, es')
    /\ stored_doc es' "entities" (dataset_type, EntityDAO.entity e) = Some src
    /\ EntityDAO.src_datasets src = Some ds
    /\ In dataset_id ds
    /\ (forall old d,
          stored_doc es "entities" (dataset_type, EntityDAO.entity e) = Some old ->
          In d (default [] (EntityDAO.src_datasets old)) -> In d ds).
Proof.
  destruct (init_run dataset_type dataset_id es) as (es1 & ix & Hinit & Hix & Hold).
  unfold bind. rewrite Hinit.
  destruct (insert_entity_run
              {| EntityDAO.dao_index := "entities"; EntityDAO.dao_type := dataset_type;
                 EntityDAO.dao_dataset_id := dataset_id |} e es1 ix Hix)
    as (src & Hrun & Hds).
  cbn [EntityDAO.dao_index EntityDAO.dao_type EntityDAO.dao_dataset_id] in Hrun, Hds.
  eexists _, src, _. split; [exact Hrun|]. split.
  { rewrite stored_doc_put. now rewrite decide_True. }
  split; [exact Hds|]. split.
  - apply add_dataset_In. now left.
  - intros old d Hstored Hd. apply add_dataset_In. right.
    unfold stored_doc in Hstored.
    destruct (es !! "entities") as [ix0|] eqn:Hes; [|discriminate].
    rewrite (Hold ix0 eq_refl). unfold stored_datasets. now rewrite Hstored.
Qed.

(** ** PredictSimilarEntitiesResource.on_get: the values that reach the index *)

(** On a ready dataset [on_get] makes one query, with the limit plus one and
    the search effort its two parameters give once the defaults are in. *)
Lemma on_get_query (dataset_dao : DatasetDAO) (req : request) (dataset_id : Z)
    (entity : json) (embedding : bool) (dto : DatasetDTO) (err err' : string)
    (srv : Server) (id : Z) (limit search_k : option Z) (tr : trace) :
  get_dataset_by_id dataset_dao dataset_id = (Some dto, err) ->
  get_search_index dataset_dao dto = (Some srv, err') ->
  embedding = true
  \/ (embedding = false
      /\ get_entity_id (build_dataset_object dataset_dao dto) entity = Some id) ->
  run (get_param_as_int req "limit") = inr limit ->
  run (get_param_as_int req "search_k") = inr search_k ->
  exists resp calls,
    PredictSimilarEntitiesResource.on_get dataset_dao req dataset_id entity embedding tr
    = (inr resp, tr ++ calls)
    /\ List.filter is_query calls
       = [query_event embedding entity id (or_default 10 limit + 1)
            (or_default (-1) search_k)]
    /\ similar_field resp "search_k" = Some (JInt (or_default (-1) search_k)).
Proof.
  intros Hdto Hsrv [->|[-> Hid]] Hl Hk.
  - rewrite (on_get_by_embedding_run _ _ _ _ _ _ _ _ _ _ tr Hdto Hsrv Hl Hk).
    eexists _, _. split; [reflexivity|]. split; [|reflexivity].
    cbn [app List.filter is_query query_event]. now rewrite no_query_in_lookups.
  - rewrite (on_get_by_reference_run _ _ _ _ _ _ _ _ _ _ _ tr Hdto Hsrv Hl Hk Hid).
    eexists _, _. split; [reflexivity|]. split; [|reflexivity].
    cbn [app List.filter is_query query_event].
    now rewrite List.filter_app, no_query_in_lookups.
Qed.

(** C8: on a ready dataset a similarity request makes exactly one query to
    the index.  When the request leaves out [limit], that query asks for
    [10 + 1] neighbours: the limit in effect is 10.  When it leaves out
    [search_k], the query is made with search effort -1, which is also the
    [search_k] the answer reports.  A parameter that is given is used as it
    is. *)
Theorem on_get_defaults (dataset_dao : DatasetDAO) (req : request) (dataset_id : Z)
    (entity : json) (embedding : bool) (dto : DatasetDTO) (err err' : string)
    (srv : Server) (id : Z) (limit search_k : option Z) (tr : trace) :
  get_dataset_by_id dataset_dao dataset_id = (Some dto, err) ->
  get_search_index dataset_dao dto = (Some srv, err') ->
  embedding = true
  \/ (embedding = false
      /\ get_entity_id (build_dataset_object dataset_dao dto) entity = Some id) ->
  run (get_param_as_int req "limit") = inr limit ->
  run (get_param_as_int req "search_k") = inr search_k ->
  let n := match get_param (params req) "limit", limit with
           | Some _, Some given => given + 1
           | _, _ => 10 + 1
           end in
  let k := match get_param (params req) "search_k", search_k with
           | Some _, Some given => given
           | _, _ => -1
           end in
  exists resp calls,
    PredictSimilarEntitiesResource.on_get dataset_dao req dataset_id entity embedding tr
    = (inr resp, tr ++ calls)
    /\ List.filter is_query calls = [query_event embedding entity id n k]
    /\ similar_field resp "search_k" = Some (JInt k).
Proof.
  intros Hdto Hsrv Hmode Hl Hk n k.
  destruct (on_get_query _ _ _ _ _ _ _ _ _ id _ _ tr Hdto Hsrv Hmode Hl Hk)
    as (resp & calls & Hrun & Hquery & Hfield).
  exists resp, calls. split; [exact Hrun|].
  assert (or_default 10 limit + 1 = n) as <-.
  { subst n. unfold get_param_as_int in Hl.
    destruct (get_param (params req) "limit") as [[z|]|]; cbn in Hl;
      inversion Hl; reflexivity. }
  assert (or_default (-1) search_k = k) as <-.
  { subst k. unfold get_param_as_int in Hk.
    destruct (get_param (params req) "search_k") as [[z|]|]; cbn in Hk;
      inversion Hk; reflexivity. }
  split; assumption.
Qed.

(** Both parameters left out, by reference on D1: the index is asked once,
    for 11 neighbours of Q1 with search effort -1. *)
Lemma on_get_defaults_witness :
  exists resp calls,
    PredictSimilarEntitiesResource.on_get Scenario.d1_dao (Scenario.get_req []) 1
      (JStr "Q1") false []
    = (inr resp, [] ++ calls)
    /\ List.filter is_query calls = [SimilarityById 1 11 (-1)]
    /\ similar_field resp "search_k" = Some (JInt (-1)).
Proof.
  exact (on_get_defaults Scenario.d1_dao (Scenario.get_req []) 1 (JStr "Q1") false
           Scenario.d1_dto "" "" Scenario.d1_server 1 None None []
           eq_refl eq_refl (or_intror (conj eq_refl eq_refl)) eq_refl eq_refl).
Defined.
